(** * GitHub porcelain of sourcecred: typed entity views over a plugin graph

    A shallow embedding of the porcelain module of the GitHub plugin: the
    dispatcher [asEntity], the wrapper classes ([GithubEntity],
    [Repository], [Post], [Commentable], [Author], [PullRequest], [Issue],
    [Comment], [PullRequestReview], [PullRequestReviewComment]) and the
    entry point [Porcelain], followed by the properties the specification
    states about them.

    JavaScript values are kept as they are at run time: Flow annotations are
    erased, so a payload is an object read by property name, a missing
    property reads as [undefined], and reading a property of [undefined]
    throws. *)

From Stdlib Require Import ZArith.
From stdpp Require Import base decidable option list strings gmap.

Local Open Scope string_scope.

(** ** Run-time values *)

(** The values a payload field can hold.  Numbers are the integers GitHub
    hands out as issue and pull-request numbers. *)
Inductive jsval :=
| JUndefined
| JNull
| JNum (n : Z)
| JStr (s : string).

#[global] Instance jsval_eq_dec : EqDecision jsval.
Proof. solve_decision. Defined.

(** A payload object: property name to value. *)
Abbreviation Payload := (gmap string jsval).

(** [o.f] on an object [o]: the value stored under [f], or [undefined]. *)
Definition prop (o : Payload) (f : string) : jsval :=
  default JUndefined (o !! f).

(** [v === w]. *)
Definition strict_eq (v w : jsval) : bool := bool_decide (v = w).

(** ** Addresses, nodes and edges *)

Module Address.
(** [core/address]: the fields the porcelain reads are [pluginName],
    [type] and [id]. *)
Record t := mk { pluginName : string; type : string; id : string }.

#[global] Instance eq_dec : EqDecision t.
Proof. solve_decision. Defined.
End Address.

Module Node.
Record t := mk { address : Address.t; payload : Payload }.
End Node.

Module Edge.
Record t := mk {
  address : Address.t;
  src : Address.t;
  dst : Address.t;
  payload : Payload
}.
End Edge.

(** ** Constants imported from modules outside this file *)

(** Modelled from the spec: the node and edge type tags of [./types], which
    is not among the sources.  The node tags are the literals of the switch
    in [asEntity]; the edge tags are the names of section 3 of the
    specification. *)
Definition ISSUE_NODE_TYPE := "ISSUE".
Definition PULL_REQUEST_NODE_TYPE := "PULL_REQUEST".
Definition COMMENT_NODE_TYPE := "COMMENT".
Definition AUTHOR_NODE_TYPE := "AUTHOR".
Definition PULL_REQUEST_REVIEW_NODE_TYPE := "PULL_REQUEST_REVIEW".
Definition PULL_REQUEST_REVIEW_COMMENT_NODE_TYPE := "PULL_REQUEST_REVIEW_COMMENT".
Definition REPOSITORY_NODE_TYPE := "REPOSITORY".

Definition AUTHORS_EDGE_TYPE := "AUTHORS".
Definition CONTAINS_EDGE_TYPE := "CONTAINS".
Definition REFERENCES_EDGE_TYPE := "REFERENCES".
Definition MERGED_AS_EDGE_TYPE := "MERGED_AS".

(** [PLUGIN_NAME] of [./pluginName] and [COMMIT_NODE_TYPE] of [../git/types]:
    their values are not known here, so every definition and theorem that
    depends on them is stated for arbitrary values. *)
Class Imports := {
  PLUGIN_NAME : string;
  COMMIT_NODE_TYPE : string
}.

(** ** The graph *)

Module Graph.
(** Modelled from the spec: the class [Graph] of [core/graph], which is not
    among the sources.  Section 2 describes it as a mapping from address to
    node payload and a mapping from address to edge, enumerated in a stable
    order; the order is kept explicit here as the order of two lists, so
    that every enumeration order is covered. *)
Record t := mk { all_nodes : list Node.t; all_edges : list Edge.t }.

(** The invariant of section 3: an address names at most one node, and at
    most one edge. *)
Definition unique_nodes (g : t) : Prop :=
  NoDup (Node.address <$> all_nodes g).

Definition unique_edges (g : t) : Prop :=
  NoDup (Edge.address <$> all_edges g).

(** Modelled from the spec: [node(address)], a point lookup whose result is
    absent ([None]) when the address is unknown. *)
Definition node (g : t) (a : Address.t) : option Node.t :=
  List.find (fun n => bool_decide (Node.address n = a)) (all_nodes g).

(** No edge refers to a node that is not in the graph. *)
Definition closed (g : t) : Prop :=
  Forall (fun e => is_Some (node g (Edge.src e)) ∧ is_Some (node g (Edge.dst e)))
         (all_edges g).

Definition wf (g : t) : Prop := unique_nodes g ∧ unique_edges g ∧ closed g.

(** Modelled from the spec: [nodes({type})], all nodes whose address has
    the given type tag. *)
Definition nodes (g : t) (type : string) : list Node.t :=
  List.filter (fun n => bool_decide (Address.type (Node.address n) = type))
              (all_nodes g).

Inductive Direction := IN | OUT | BOTH.

(** The options object of [neighborhood]; an omitted criterion is [None]. *)
Record Options := {
  edgeType : option string;
  nodeType : option string;
  direction : option Direction
}.

Record Neighbor := { edge : Edge.t; neighbor : Address.t }.

Definition allows_out (d : option Direction) : bool :=
  match d with Some IN => false | _ => true end.

Definition allows_in (d : option Direction) : bool :=
  match d with Some OUT => false | _ => true end.

(** An optional criterion holds of a tag when it is omitted or equal. *)
Definition matches (criterion : option string) (tag : string) : bool :=
  match criterion with
  | None => true
  | Some c => bool_decide (tag = c)
  end.

(** How one edge is incident to [a] under a direction criterion: [OUT]
    when [a] is its source, [IN] when [a] is its destination, either when
    the criterion is [BOTH] or omitted; a self-loop is reported once. *)
Definition incident (a : Address.t) (d : option Direction) (e : Edge.t)
  : option Neighbor :=
  if allows_out d && bool_decide (Edge.src e = a)
  then Some {| edge := e; neighbor := Edge.dst e |}
  else if allows_in d && bool_decide (Edge.dst e = a)
  then Some {| edge := e; neighbor := Edge.src e |}
  else None.

(** Modelled from the spec: [neighborhood(address, options)] of
    section 4.1, the edges incident to [address] that meet every supplied
    criterion, each with the address at its other end.  The neighbor's
    type tag is that of its address. *)
Definition neighborhood (g : t) (a : Address.t) (o : Options)
  : list Neighbor :=
  List.filter
    (fun n => matches (edgeType o) (Address.type (Edge.address (edge n)))
              && matches (nodeType o) (Address.type (neighbor n)))
    (omap (incident a (direction o)) (all_edges g)).
End Graph.

(** ** Exceptions *)

(** The exceptions the porcelain raises, one constructor per [throw] site,
    carrying what the message interpolates; [MissingPayload] is the
    [TypeError] of reading [.payload] of [undefined], [NotAFunction] the
    [TypeError] of calling a method the object does not have. *)
Inductive error :=
| WrongNamespace (addr : Address.t)
    (* Tried to make GitHub porcelain, but got the wrong plugin name: <addr> *)
| UnknownEntityType (addr : Address.t)
    (* Tried to make GitHub porcelain, but got invalid type: <addr> *)
| TypeMismatch (addr : Address.t) (t : string)
    (* Expected entity at <addr> to have type <t> *)
| InvariantViolation (id : string)
    (* Node at <id> has too many MERGED_AS edges *)
| MultipleRepositories (owner name : string)
    (* Unexpectedly found multiple repositories named <owner>/<name> *)
| MissingPayload
| NotAFunction (method : string).

Inductive result (A : Type) :=
| Ok (a : A)
| Throw (e : error).
Arguments Ok {A} a.
Arguments Throw {A} e.

#[global] Instance result_ret : MRet result := fun _ a => Ok a.
#[global] Instance result_bind : MBind result := fun _ _ f r =>
  match r with
  | Ok a => f a
  | Throw e => Throw e
  end.

Definition is_Ok {A} (r : result A) : bool :=
  match r with Ok _ => true | Throw _ => false end.

(** [xs.filter(p)] for a callback that may throw. *)
Fixpoint filterM {A} (p : A → result bool) (xs : list A) : result (list A) :=
  match xs with
  | [] => Ok []
  | x :: xs' =>
      b ← p x;
      ys ← filterM p xs';
      Ok (if b : bool then x :: ys else ys)
  end.

(** ** Entities *)

Module Cls.
(** The concrete classes of the union [Entity]. *)
Inductive t :=
| Repository
| Issue
| PullRequest
| Comment
| Author
| PullRequestReview
| PullRequestReviewComment.

#[global] Instance eq_dec : EqDecision t.
Proof. solve_decision. Defined.

(** The classes that extend [Post]. *)
Definition is_post (c : t) : bool :=
  match c with
  | Issue | PullRequest | Comment
  | PullRequestReview | PullRequestReviewComment => true
  | Repository | Author => false
  end.
End Cls.

(** An object of one of the wrapper classes: [new c g a] is [new C(g, a)].
    The constructor of [GithubEntity] stores its two arguments and does
    nothing else. *)
Record Entity := new {
  cls : Cls.t;
  graph : Graph.t;
  nodeAddress : Address.t
}.

(** [x.payload] where [x] is the result of [graph.node]: a [TypeError] when
    [x] is [undefined]. *)
Definition payload_of (x : option Node.t) : result Payload :=
  match x with
  | Some n => Ok (Node.payload n)
  | None => Throw MissingPayload
  end.

Module GithubEntity.
Definition node (this : Entity) : option Node.t :=
  Graph.node (graph this) (nodeAddress this).

Definition url (this : Entity) : result jsval :=
  p ← payload_of (node this); Ok (prop p "url").

Definition type (this : Entity) : string :=
  Address.type (nodeAddress this).

Definition address (this : Entity) : Address.t :=
  nodeAddress this.
End GithubEntity.

Definition assertEntityType (e : Entity) (t : string) : result unit :=
  if decide (GithubEntity.type e ≠ t)
  then Throw (TypeMismatch (GithubEntity.address e) t)
  else Ok ().

Definition asEntity `{Imports} (g : Graph.t) (addr : Address.t)
  : result Entity :=
  let type := Address.type addr in
  if decide (Address.pluginName addr ≠ PLUGIN_NAME)
  then Throw (WrongNamespace addr)
  else if decide (type = "ISSUE") then Ok (new Cls.Issue g addr)
  else if decide (type = "PULL_REQUEST") then Ok (new Cls.PullRequest g addr)
  else if decide (type = "COMMENT") then Ok (new Cls.Comment g addr)
  else if decide (type = "AUTHOR") then Ok (new Cls.Author g addr)
  else if decide (type = "PULL_REQUEST_REVIEW")
  then Ok (new Cls.PullRequestReview g addr)
  else if decide (type = "PULL_REQUEST_REVIEW_COMMENT")
  then Ok (new Cls.PullRequestReviewComment g addr)
  else if decide (type = "REPOSITORY") then Ok (new Cls.Repository g addr)
  else Throw (UnknownEntityType addr).

Module Repository.
(** The two [forEach] loops assign to the one variable [result], which
    starts out [undefined]. *)
Definition issueOrPRByNumber (this : Entity) (number : Z) : option Entity :=
  let result : option Entity := None in
  let result :=
    fold_left
      (fun result n =>
         if strict_eq (prop (Node.payload n) "number") (JNum number)
         then Some (new Cls.Issue (graph this) (Node.address n))
         else result)
      (Graph.nodes (graph this) ISSUE_NODE_TYPE) result in
  let result :=
    fold_left
      (fun result n =>
         if strict_eq (prop (Node.payload n) "number") (JNum number)
         then Some (new Cls.PullRequest (graph this) (Node.address n))
         else result)
      (Graph.nodes (graph this) PULL_REQUEST_NODE_TYPE) result in
  result.

Definition owner (this : Entity) : result jsval :=
  p ← payload_of (GithubEntity.node this); Ok (prop p "owner").

Definition name (this : Entity) : result jsval :=
  p ← payload_of (GithubEntity.node this); Ok (prop p "name").

Definition issues (this : Entity) : list Entity :=
  (fun n => new Cls.Issue (graph this) (Node.address n))
    <$> Graph.nodes (graph this) ISSUE_NODE_TYPE.

Definition pullRequests (this : Entity) : list Entity :=
  (fun n => new Cls.PullRequest (graph this) (Node.address n))
    <$> Graph.nodes (graph this) PULL_REQUEST_NODE_TYPE.

Definition authors (this : Entity) : list Entity :=
  (fun n => new Cls.Author (graph this) (Node.address n))
    <$> Graph.nodes (graph this) AUTHOR_NODE_TYPE.
End Repository.

Module Porcelain.
(** The class holds one field, [graph]; its methods take it as their
    receiver. *)
Definition repositories (graph : Graph.t) : list Entity :=
  (fun n => new Cls.Repository graph (Node.address n))
    <$> Graph.nodes graph REPOSITORY_NODE_TYPE.

(** The callback of the filter: [r.owner() === owner && r.name() === name],
    the right operand evaluated only when the left one is true. *)
Definition named (owner name : string) (r : Entity) : result bool :=
  o ← Repository.owner r;
  if strict_eq o (JStr owner)
  then n ← Repository.name r; Ok (strict_eq n (JStr name))
  else Ok false.

(** [repo[0]] is [undefined] ([None]) on an empty array. *)
Definition repository (graph : Graph.t) (owner name : string)
  : result (option Entity) :=
  repo ← filterM (named owner name) (repositories graph);
  if decide (1 < length repo)%nat
  then Throw (MultipleRepositories owner name)
  else Ok (repo !! 0%nat).
End Porcelain.

Module Post.
Definition authors (this : Entity) : list Entity :=
  (fun n => new Cls.Author (graph this) (Graph.neighbor n))
    <$> Graph.neighborhood (graph this) (nodeAddress this)
          {| Graph.edgeType := Some AUTHORS_EDGE_TYPE;
             Graph.nodeType := Some AUTHOR_NODE_TYPE;
             Graph.direction := None |}.

Definition body (this : Entity) : result jsval :=
  p ← payload_of (GithubEntity.node this); Ok (prop p "body").

Definition references `{Imports} (this : Entity) : result (list Entity) :=
  mapM (fun n => asEntity (graph this) (Graph.neighbor n))
       (Graph.neighborhood (graph this) (nodeAddress this)
          {| Graph.edgeType := Some REFERENCES_EDGE_TYPE;
             Graph.nodeType := None;
             Graph.direction := Some Graph.OUT |}).
End Post.

Module Commentable.
Definition comments (this : Entity) : list Entity :=
  (fun n => new Cls.Comment (graph this) (Graph.neighbor n))
    <$> Graph.neighborhood (graph this) (nodeAddress this)
          {| Graph.edgeType := Some CONTAINS_EDGE_TYPE;
             Graph.nodeType := Some COMMENT_NODE_TYPE;
             Graph.direction := None |}.
End Commentable.

Module Author.
Definition from (e : Entity) : result Entity :=
  _ ← assertEntityType e AUTHOR_NODE_TYPE; Ok e.

Definition login (this : Entity) : result jsval :=
  p ← payload_of (GithubEntity.node this); Ok (prop p "login").

Definition subtype (this : Entity) : result jsval :=
  p ← payload_of (GithubEntity.node this); Ok (prop p "subtype").
End Author.

Module PullRequest.
Definition from (e : Entity) : result Entity :=
  _ ← assertEntityType e PULL_REQUEST_NODE_TYPE; Ok e.

Definition number (this : Entity) : result jsval :=
  p ← payload_of (GithubEntity.node this); Ok (prop p "number").

Definition title (this : Entity) : result jsval :=
  p ← payload_of (GithubEntity.node this); Ok (prop p "title").

Definition reviews (this : Entity) : list Entity :=
  (fun n => new Cls.PullRequestReview (graph this) (Graph.neighbor n))
    <$> Graph.neighborhood (graph this) (nodeAddress this)
          {| Graph.edgeType := Some CONTAINS_EDGE_TYPE;
             Graph.nodeType := Some PULL_REQUEST_REVIEW_NODE_TYPE;
             Graph.direction := None |}.

(** [null] is returned as [JNull]; [mergeEdge.length > 1] is written
    [1 < length mergeEdge]; [mergeEdge[0]] is read only when the array has
    exactly one element. *)
Definition mergeCommitHash `{Imports} (this : Entity) : result jsval :=
  let mergeEdge :=
    Graph.edge
      <$> Graph.neighborhood (graph this) (nodeAddress this)
            {| Graph.edgeType := Some MERGED_AS_EDGE_TYPE;
               Graph.nodeType := Some COMMIT_NODE_TYPE;
               Graph.direction := Some Graph.OUT |} in
  if decide (1 < length mergeEdge)%nat
  then Throw (InvariantViolation (Address.id (nodeAddress this)))
  else if decide (length mergeEdge = 0%nat)
  then Ok JNull
  else match mergeEdge !! 0%nat with
       | Some e => Ok (prop (Edge.payload e) "hash")
       | None => Throw MissingPayload
       end.
End PullRequest.

Module Issue.
Definition from (e : Entity) : result Entity :=
  _ ← assertEntityType e ISSUE_NODE_TYPE; Ok e.

Definition number (this : Entity) : result jsval :=
  p ← payload_of (GithubEntity.node this); Ok (prop p "number").

Definition title (this : Entity) : result jsval :=
  p ← payload_of (GithubEntity.node this); Ok (prop p "title").
End Issue.

Module Comment.
Definition from (e : Entity) : result Entity :=
  _ ← assertEntityType e COMMENT_NODE_TYPE; Ok e.
End Comment.

Module PullRequestReview.
Definition from (e : Entity) : result Entity :=
  _ ← assertEntityType e PULL_REQUEST_REVIEW_NODE_TYPE; Ok e.

Definition state (this : Entity) : result jsval :=
  p ← payload_of (GithubEntity.node this); Ok (prop p "state").

Definition comments (this : Entity) : list Entity :=
  (fun n => new Cls.PullRequestReviewComment (graph this) (Graph.neighbor n))
    <$> Graph.neighborhood (graph this) (nodeAddress this)
          {| Graph.edgeType := Some CONTAINS_EDGE_TYPE;
             Graph.nodeType := Some PULL_REQUEST_REVIEW_COMMENT_NODE_TYPE;
             Graph.direction := None |}.
End PullRequestReview.

Module PullRequestReviewComment.
Definition from (e : Entity) : result Entity :=
  _ ← assertEntityType e PULL_REQUEST_REVIEW_COMMENT_NODE_TYPE; Ok e.
End PullRequestReviewComment.

(** ** Static methods *)

(** The node type a class stands for: the case of [asEntity] that constructs
    it, and the tag its [from] asserts when it has one. *)
Definition tag (V : Cls.t) : string :=
  match V with
  | Cls.Repository => REPOSITORY_NODE_TYPE
  | Cls.Issue => ISSUE_NODE_TYPE
  | Cls.PullRequest => PULL_REQUEST_NODE_TYPE
  | Cls.Comment => COMMENT_NODE_TYPE
  | Cls.Author => AUTHOR_NODE_TYPE
  | Cls.PullRequestReview => PULL_REQUEST_REVIEW_NODE_TYPE
  | Cls.PullRequestReviewComment => PULL_REQUEST_REVIEW_COMMENT_NODE_TYPE
  end.

(** The property [from] of each class object: six classes declare
    [static from]; [Repository] declares none and inherits none from
    [GithubEntity]. *)
Definition static_from (V : Cls.t) : option (Entity → result Entity) :=
  match V with
  | Cls.Repository => None
  | Cls.Issue => Some Issue.from
  | Cls.PullRequest => Some PullRequest.from
  | Cls.Comment => Some Comment.from
  | Cls.Author => Some Author.from
  | Cls.PullRequestReview => Some PullRequestReview.from
  | Cls.PullRequestReviewComment => Some PullRequestReviewComment.from
  end.

(** The call [V.from(e)]. *)
Definition call_from (V : Cls.t) (e : Entity) : result Entity :=
  match static_from V with
  | Some f => f e
  | None => Throw (NotAFunction "from")
  end.

(** ** The [grain2] command *)

Module Grain2.
(** The [std] argument of a command: [std.out(line)] and [std.err(line)]
    each emit one line; the lines emitted so far are kept in order. *)
Record Std := { out : list string; err : list string }.

Definition std_err (std : Std) (line : string) : Std :=
  {| out := out std; err := err std ++ [line] |}.

(** [die] emits one line on the error stream and returns exit code 1. *)
Definition die (std : Std) (message : string) : Std * Z :=
  (std_err std ("fatal: " +:+ message), 1%Z).

(** [grain2Command] up to the end of its argument check.  What follows the
    check (reading the configuration and the ledger, distributing, logging,
    writing the files) is the parameter [distribute], which receives the
    value of [simulation]; the command either returns through [die]
    ([inl]) or goes on to it ([inr]). *)
Definition grain2Command {R} (distribute : bool → Std → R)
    (args : list string) (std : Std) : Std * Z + R :=
  let simulation := false in
  if bool_decide (length args = 1%nat)
     && (bool_decide (args !! 0%nat = Some "--simulation")
         || bool_decide (args !! 0%nat = Some "-s"))
  then let simulation := true in inr (distribute simulation std)
  else if negb (bool_decide (length args = 0%nat))
  then inl (die std "usage: sourcecred grain2 [--simulation]")
  else inr (distribute simulation std).
End Grain2.

(** ** Loading the cred view *)

Module Load.
Section Load.
(** [X]: the values that can be thrown or rejected with; [J]: parsed JSON.
    The functions [load] calls on the parsed JSON are in modules outside
    this one and are parameters, each returning normally ([inr]) or
    throwing ([inl]): [credResultFromJSON], the constructor of [CredView],
    and the destructuring [const {bundledPlugins} = ...]. *)
Context {X J CredResult CredView Plugins : Type}.
Variable credResultFromJSON : J → X + CredResult.
Variable newCredView : CredResult → X + CredView.
Variable bundledPlugins_of : J → X + Plugins.

(** A fetched response: [ok], [status], and the outcome of awaiting
    [json()]. *)
Record Response := { ok : bool; status : Z; json : X + J }.

(** The field [error : any] of a failure holds a status or a caught
    value. *)
Inductive LoadError :=
| Status (status : Z)
| Caught (e : X).

Inductive LoadResult :=
| SUCCESS (credView : CredView) (bundledPlugins : Plugins)
| FAILURE (error : LoadError).

(** What [console.error] was called with. *)
Inductive Logged :=
| LogResponse (response : Response)
| LogCaught (e : X).

(** The body of the [try] block. *)
Definition parse (r0 r1 : Response) : X + CredView * Plugins :=
  match json r0 with
  | inl e => inl e
  | inr parsed =>
      match credResultFromJSON parsed with
      | inl e => inl e
      | inr credResult =>
          match newCredView credResult with
          | inl e => inl e
          | inr credView =>
              match json r1 with
              | inl e => inl e
              | inr parsed1 =>
                  match bundledPlugins_of parsed1 with
                  | inl e => inl e
                  | inr bundledPlugins => inr (credView, bundledPlugins)
                  end
              end
          end
      end
  end.

(** [load], given the outcome of [await Promise.all(queries)]: a rejection
    ([inl]) or the two responses, in the order of the queries.  The result
    is a rejection of [load] itself ([inl]) or the lines logged and the
    value returned. *)
Definition load (fetched : X + Response * Response)
  : X + list Logged * LoadResult :=
  match fetched with
  | inl e => inl e
  | inr (r0, r1) =>
      if negb (ok r0)
      then inr ([LogResponse r0], FAILURE (Status (status r0)))
      else if negb (ok r1)
      then inr ([LogResponse r1], FAILURE (Status (status r1)))
      else match parse r0 r1 with
           | inr (credView, bundledPlugins) =>
               inr ([], SUCCESS credView bundledPlugins)
           | inl e => inr ([LogCaught e], FAILURE (Caught e))
           end
  end.
End Load.
End Load.

(** ** Vocabulary of the properties *)

(** The class of a wrapper agrees with the type tag of its address. *)
Definition well_tagged (e : Entity) : Prop :=
  GithubEntity.type e = tag (cls e).

(** A neighborhood query by edge type and neighbor type. *)
Definition typed_query (et nt : string) (d : option Graph.Direction)
  : Graph.Options :=
  {| Graph.edgeType := Some et; Graph.nodeType := Some nt;
     Graph.direction := d |}.

(** The nodes of one type whose payload carries the number [n]. *)
Definition numbered (g : Graph.t) (type : string) (n : Z) : list Node.t :=
  filter (λ x, Address.type (Node.address x) = type
               ∧ prop (Node.payload x) "number" = JNum n)
         (Graph.all_nodes g).

(** The query of [Post.authors], with the direction left open. *)
Definition authors_query (d : option Graph.Direction) : Graph.Options :=
  {| Graph.edgeType := Some AUTHORS_EDGE_TYPE;
     Graph.nodeType := Some AUTHOR_NODE_TYPE;
     Graph.direction := d |}.

(** The query of [Post.references]. *)
Definition references_query : Graph.Options :=
  {| Graph.edgeType := Some REFERENCES_EDGE_TYPE;
     Graph.nodeType := None;
     Graph.direction := Some Graph.OUT |}.

(** ** Example data *)

(** Values for the two imported constants, used by the concrete examples
    only. *)
Definition example_imports : Imports :=
  {| PLUGIN_NAME := "github"; COMMIT_NODE_TYPE := "COMMIT" |}.

Definition github (type id : string) : Address.t :=
  Address.mk "github" type id.

Definition git (type id : string) : Address.t :=
  Address.mk "git" type id.

(** One repository with issue #1, pull request #1 merged as a commit of the
    git plugin, and one author; the issue refers to the pull request and to
    the commit. *)
Definition widgets : Graph.t :=
  Graph.mk
    [ Node.mk (github "REPOSITORY" "acme/widgets")
        {[ "owner" := JStr "acme"; "name" := JStr "widgets";
           "url" := JStr "https://github.com/acme/widgets" ]};
      Node.mk (github "ISSUE" "issues/1")
        {[ "number" := JNum 1; "title" := JStr "Bug";
           "body" := JStr "It breaks." ]};
      Node.mk (github "PULL_REQUEST" "pull/1")
        {[ "number" := JNum 1; "title" := JStr "Fix";
           "body" := JStr "Fixes it." ]};
      Node.mk (github "AUTHOR" "alice")
        {[ "login" := JStr "alice"; "subtype" := JStr "USER" ]};
      Node.mk (git "COMMIT" "c0ffee") ∅ ]
    [ Edge.mk (github "AUTHORS" "e1")
        (github "ISSUE" "issues/1") (github "AUTHOR" "alice") ∅;
      Edge.mk (github "MERGED_AS" "e2")
        (github "PULL_REQUEST" "pull/1") (git "COMMIT" "c0ffee")
        {[ "hash" := JStr "c0ffee" ]};
      Edge.mk (github "REFERENCES" "e3")
        (github "ISSUE" "issues/1") (github "PULL_REQUEST" "pull/1") ∅;
      Edge.mk (github "REFERENCES" "e4")
        (github "ISSUE" "issues/1") (git "COMMIT" "c0ffee") ∅ ].

(** An issue whose AUTHORS edge runs from the author to the issue. *)
Definition authored_backwards : Graph.t :=
  Graph.mk
    [ Node.mk (github "ISSUE" "issues/1") {[ "number" := JNum 1 ]};
      Node.mk (github "AUTHOR" "alice") {[ "login" := JStr "alice" ]} ]
    [ Edge.mk (github "AUTHORS" "e1")
        (github "AUTHOR" "alice") (github "ISSUE" "issues/1") ∅ ].

(** An issue that refers first to a node of this plugin whose tag is none of
    the seven, then to a commit of the git plugin. *)
Definition milestone_then_commit : Graph.t :=
  Graph.mk
    [ Node.mk (github "ISSUE" "issues/1") {[ "number" := JNum 1 ]};
      Node.mk (github "MILESTONE" "milestone/1") ∅;
      Node.mk (git "COMMIT" "c0ffee") ∅ ]
    [ Edge.mk (github "REFERENCES" "e1")
        (github "ISSUE" "issues/1") (github "MILESTONE" "milestone/1") ∅;
      Edge.mk (github "REFERENCES" "e2")
        (github "ISSUE" "issues/1") (git "COMMIT" "c0ffee") ∅ ].

(** Two repository nodes with the same owner and name. *)
Definition twin_repositories : Graph.t :=
  Graph.mk
    [ Node.mk (github "REPOSITORY" "acme/widgets")
        {[ "owner" := JStr "acme"; "name" := JStr "widgets" ]};
      Node.mk (github "REPOSITORY" "mirror/acme/widgets")
        {[ "owner" := JStr "acme"; "name" := JStr "widgets" ]} ]
    [].

(** A pull request with one comment and one review, and the review with one
    comment; the containers are the sources of the CONTAINS edges.  The
    comment refers to the pull request.  One node of the git plugin carries
    the tag ISSUE. *)
Definition reviewed : Graph.t :=
  Graph.mk
    [ Node.mk (github "PULL_REQUEST" "pull/2") {[ "number" := JNum 2 ]};
      Node.mk (github "COMMENT" "comments/1") {[ "body" := JStr "Nice." ]};
      Node.mk (github "PULL_REQUEST_REVIEW" "reviews/1")
        {[ "state" := JStr "APPROVED" ]};
      Node.mk (github "PULL_REQUEST_REVIEW_COMMENT" "review-comments/1")
        {[ "body" := JStr "Typo." ]};
      Node.mk (git "ISSUE" "not-ours") ∅ ]
    [ Edge.mk (github "CONTAINS" "c1")
        (github "PULL_REQUEST" "pull/2") (github "COMMENT" "comments/1") ∅;
      Edge.mk (github "CONTAINS" "c2")
        (github "PULL_REQUEST" "pull/2")
        (github "PULL_REQUEST_REVIEW" "reviews/1") ∅;
      Edge.mk (github "CONTAINS" "c3")
        (github "PULL_REQUEST_REVIEW" "reviews/1")
        (github "PULL_REQUEST_REVIEW_COMMENT" "review-comments/1") ∅;
      Edge.mk (github "REFERENCES" "r1")
        (github "COMMENT" "comments/1") (github "PULL_REQUEST" "pull/2") ∅ ].

#[global] Instance wf_dec (g : Graph.t) : Decision (Graph.wf g).
Proof.
  unfold Graph.wf, Graph.unique_nodes, Graph.unique_edges, Graph.closed.
  apply _.
Defined.

(** * Properties *)

(** ** Resolution *)

Section Resolution.
Context `{Imports}.

Lemma asEntity_foreign g a :
  Address.pluginName a ≠ PLUGIN_NAME → asEntity g a = Throw (WrongNamespace a).
Proof. intros Hne. unfold asEntity. by rewrite decide_True. Qed.

Lemma asEntity_Ok_inv g a e :
  asEntity g a = Ok e →
  Address.pluginName a = PLUGIN_NAME ∧ graph e = g ∧ nodeAddress e = a
  ∧ Address.type a = tag (cls e).
Proof.
  unfold asEntity. intros He.
  repeat case_decide; simplify_eq; simpl;
    by repeat split.
Qed.

Lemma asEntity_own_tag g a V :
  Address.pluginName a = PLUGIN_NAME → Address.type a = tag V →
  asEntity g a = Ok (new V g a).
Proof.
  intros Hp Ht. unfold asEntity.
  rewrite decide_False by (intros Hne; by apply Hne).
  rewrite Ht. by destruct V.
Qed.

Lemma asEntity_unknown g a :
  Address.pluginName a = PLUGIN_NAME → (∀ V, Address.type a ≠ tag V) →
  asEntity g a = Throw (UnknownEntityType a).
Proof.
  intros Hp Hu. unfold asEntity.
  rewrite decide_False by (intros Hne; by apply Hne).
  pose proof (Hu Cls.Issue). pose proof (Hu Cls.PullRequest).
  pose proof (Hu Cls.Comment). pose proof (Hu Cls.Author).
  pose proof (Hu Cls.PullRequestReview).
  pose proof (Hu Cls.PullRequestReviewComment).
  pose proof (Hu Cls.Repository).
  by repeat case_decide.
Qed.
(** C1. [asEntity] throws the wrong-plugin-name error when the plugin name of
    the address is not [PLUGIN_NAME]; otherwise it constructs the class that
    belongs to the type tag, for each of the seven tags, and throws the
    invalid-type error for every other tag. *)
Theorem asEntity_dispatch (g : Graph.t) (a : Address.t) :
  (Address.pluginName a ≠ PLUGIN_NAME →
   asEntity g a = Throw (WrongNamespace a))
  ∧ (Address.pluginName a = PLUGIN_NAME →
     (Address.type a = "ISSUE" → asEntity g a = Ok (new Cls.Issue g a))
     ∧ (Address.type a = "PULL_REQUEST" →
        asEntity g a = Ok (new Cls.PullRequest g a))
     ∧ (Address.type a = "COMMENT" → asEntity g a = Ok (new Cls.Comment g a))
     ∧ (Address.type a = "AUTHOR" → asEntity g a = Ok (new Cls.Author g a))
     ∧ (Address.type a = "PULL_REQUEST_REVIEW" →
        asEntity g a = Ok (new Cls.PullRequestReview g a))
     ∧ (Address.type a = "PULL_REQUEST_REVIEW_COMMENT" →
        asEntity g a = Ok (new Cls.PullRequestReviewComment g a))
     ∧ (Address.type a = "REPOSITORY" →
        asEntity g a = Ok (new Cls.Repository g a))
     ∧ (Address.type a ∉ ["ISSUE"; "PULL_REQUEST"; "COMMENT"; "AUTHOR";
                          "PULL_REQUEST_REVIEW"; "PULL_REQUEST_REVIEW_COMMENT";
                          "REPOSITORY"] →
        asEntity g a = Throw (UnknownEntityType a))).
Proof.
  split; [apply asEntity_foreign|]. intros Hp.
  repeat split; intros Ht.
  - by apply (asEntity_own_tag g a Cls.Issue).
  - by apply (asEntity_own_tag g a Cls.PullRequest).
  - by apply (asEntity_own_tag g a Cls.Comment).
  - by apply (asEntity_own_tag g a Cls.Author).
  - by apply (asEntity_own_tag g a Cls.PullRequestReview).
  - by apply (asEntity_own_tag g a Cls.PullRequestReviewComment).
  - by apply (asEntity_own_tag g a Cls.Repository).
  - apply asEntity_unknown; [done|].
    intros V HV. apply Ht. rewrite HV. destruct V; set_solver.
Qed.

(** C4. When [asEntity g a] returns an entity, its [address()] is [a]. *)
Theorem asEntity_address (g : Graph.t) (a : Address.t) (e : Entity) :
  asEntity g a = Ok e → GithubEntity.address e = a.
Proof.
  intros He. apply asEntity_Ok_inv in He. unfold GithubEntity.address.
  tauto.
Qed.

(** C5. Whether [asEntity] returns, and what it returns, does not depend on
    the graph it is given, so an address without a node resolves like any
    other; on the entity made from such an address [url()] throws when it
    is called, and so does [body()] when the entity is a post. *)
Theorem dangling_address_fails_on_access (g : Graph.t) (a : Address.t)
    (e : Entity) :
  Graph.node g a = None →
  asEntity g a = Ok e →
  (∀ g', asEntity g' a = Ok (new (cls e) g' a))
  ∧ GithubEntity.url e = Throw MissingPayload
  ∧ (Cls.is_post (cls e) → Post.body e = Throw MissingPayload).
Proof.
  intros Hdangling He.
  destruct (asEntity_Ok_inv _ _ _ He) as (Hp & Hg & Ha & Ht).
  split; [|split].
  - intros g'. by apply asEntity_own_tag.
  - unfold GithubEntity.url, GithubEntity.node. by rewrite Hg, Ha, Hdangling.
  - intros _. unfold Post.body, GithubEntity.node.
    by rewrite Hg, Ha, Hdangling.
Qed.
End Resolution.

(** C3, as amended.  For each of the six classes that declare [from]
    (every class but [Repository]), [V.from(e)] returns [e] itself exactly
    when the type tag of [e] is the tag of [V], and otherwise throws the
    expected-type error, which carries the address of [e] and the tag of
    [V]. *)
Theorem from_narrows (V : Cls.t) (f : Entity → result Entity) (e : Entity) :
  static_from V = Some f →
  (f e = Ok e ↔ GithubEntity.type e = tag V)
  ∧ (∀ e', f e = Ok e' → e' = e)
  ∧ (GithubEntity.type e ≠ tag V →
     f e = Throw (TypeMismatch (GithubEntity.address e) (tag V))).
Proof.
  intros Hf.
  assert (f e = if decide (GithubEntity.type e = tag V) then Ok e
                else Throw (TypeMismatch (GithubEntity.address e) (tag V)))
    as ->.
  { destruct V; simplify_eq/=;
      unfold Issue.from, PullRequest.from, Comment.from, Author.from,
        PullRequestReview.from, PullRequestReviewComment.from,
        assertEntityType;
      repeat case_decide; simpl; congruence. }
  case_decide; repeat split; try done; congruence.
Qed.

(** ** Merge commits *)

Section MergeCommit.
Context `{Imports}.

Lemma neighborhood_out_edges g a et nt :
  Graph.edge
    <$> Graph.neighborhood g a
          {| Graph.edgeType := Some et; Graph.nodeType := Some nt;
             Graph.direction := Some Graph.OUT |}
  = filter (λ e, Edge.src e = a
                 ∧ Address.type (Edge.address e) = et
                 ∧ Address.type (Edge.dst e) = nt)
           (Graph.all_edges g).
Proof.
  unfold Graph.neighborhood. simpl.
  induction (Graph.all_edges g) as [|e l IH]; [done|].
  rewrite filter_cons. simpl. unfold Graph.incident at 1. simpl.
  destruct (decide (Edge.src e = a)) as [Hs|Hs].
  - rewrite bool_decide_true by done. simpl.
    destruct (decide (Address.type (Edge.address e) = et)) as [He|He];
      destruct (decide (Address.type (Edge.dst e) = nt)) as [Hn|Hn];
      rewrite ?(bool_decide_true _ He), ?(bool_decide_false _ He),
        ?(bool_decide_true _ Hn), ?(bool_decide_false _ Hn); simpl;
      (rewrite decide_True by done) || (rewrite decide_False by tauto);
      by rewrite <- IH.
  - rewrite bool_decide_false by done. simpl.
    rewrite decide_False by tauto. apply IH.
Qed.

(** C2. [mergeCommitHash()] looks at the MERGED_AS edges that leave the
    pull request for a commit node: with none it returns [null], with
    exactly one it returns the [hash] of that edge's payload, with two or
    more it throws the too-many-edges error. *)
Theorem mergeCommitHash_cardinality (this : Entity) :
  PullRequest.mergeCommitHash this =
  match filter (λ e, Edge.src e = nodeAddress this
                     ∧ Address.type (Edge.address e) = MERGED_AS_EDGE_TYPE
                     ∧ Address.type (Edge.dst e) = COMMIT_NODE_TYPE)
               (Graph.all_edges (graph this)) with
  | [] => Ok JNull
  | [e] => Ok (prop (Edge.payload e) "hash")
  | _ :: _ :: _ =>
      Throw (InvariantViolation (Address.id (nodeAddress this)))
  end.
Proof.
  unfold PullRequest.mergeCommitHash. rewrite neighborhood_out_edges.
  by destruct (filter _ _) as [|e [|e' l]].
Qed.
End MergeCommit.

(** ** Graph-wide scans *)

Lemma List_filter_bool_decide {A} (P : A → Prop) `{∀ x, Decision (P x)}
    (l : list A) :
  List.filter (λ x, bool_decide (P x)) l = filter P l.
Proof.
  induction l as [|x l IH]; [done|].
  rewrite filter_cons. cbn [List.filter]. rewrite IH.
  destruct (decide (P x)) as [Hp|Hp].
  - by rewrite bool_decide_true.
  - by rewrite bool_decide_false.
Qed.

Lemma nodes_all_nodes g type :
  Graph.nodes g type
  = filter (λ n, Address.type (Node.address n) = type) (Graph.all_nodes g).
Proof. apply List_filter_bool_decide. Qed.

(** A [forEach] that overwrites one slot on every match leaves the last
    match in it, or what it held before when nothing matches. *)
Lemma overwrite_last {A B} (p : A → bool) (f : A → B) (l : list A)
    (slot : option B) :
  fold_left (λ result x, if p x then Some (f x) else result) l slot
  = match last (f <$> List.filter p l) with
    | Some y => Some y
    | None => slot
    end.
Proof.
  revert slot. induction l as [|x l IH]; intros slot; [done|]. simpl.
  rewrite IH. destruct (p x); [|done]. simpl.
  rewrite last_cons. by destruct (last _).
Qed.

Lemma numbered_nodes g type n :
  List.filter (λ x, strict_eq (prop (Node.payload x) "number") (JNum n))
              (Graph.nodes g type)
  = numbered g type n.
Proof.
  unfold strict_eq, numbered.
  rewrite List_filter_bool_decide, nodes_all_nodes, list_filter_filter.
  apply list_filter_iff. tauto.
Qed.

(** C6. [issueOrPRByNumber(n)] returns the last element of the sequence made
    of every issue node of the graph with number [n], wrapped as [Issue],
    followed by every pull-request node of the graph with number [n],
    wrapped as [PullRequest]; so a matching pull request wins over any
    matching issue, and without a match the result is [undefined]. *)
Theorem issueOrPRByNumber_last_match (this : Entity) (n : Z) :
  let g := graph this in
  let issues :=
    (λ x, new Cls.Issue g (Node.address x)) <$> numbered g "ISSUE" n in
  let pulls :=
    (λ x, new Cls.PullRequest g (Node.address x))
      <$> numbered g "PULL_REQUEST" n in
  Repository.issueOrPRByNumber this n = last (issues ++ pulls)
  ∧ (pulls ≠ [] → Repository.issueOrPRByNumber this n = last pulls)
  ∧ (issues = [] → pulls = [] → Repository.issueOrPRByNumber this n = None).
Proof.
  intros g issues pulls.
  assert (Repository.issueOrPRByNumber this n = last (issues ++ pulls)) as ->.
  { unfold Repository.issueOrPRByNumber. rewrite !overwrite_last.
    rewrite !numbered_nodes, last_app. fold g.
    unfold ISSUE_NODE_TYPE, PULL_REQUEST_NODE_TYPE. subst issues pulls.
    destruct (last (_ <$> numbered g "PULL_REQUEST" n)); [done|].
    by destruct (last _). }
  split; [done|]. split.
  - intros Hne. rewrite last_app. destruct (last pulls) eqn:Hl; [done|].
    by apply last_None in Hl.
  - by intros -> ->.
Qed.

(** C8. [issues()], [pullRequests()] and [authors()] of a repository return
    one wrapper for each node of the whole graph with tag ISSUE,
    PULL_REQUEST and AUTHOR respectively, in the order of the graph; the
    address of the repository plays no part. *)
Theorem repository_scans_whole_graph (this : Entity) :
  let g := graph this in
  Repository.issues this
  = (λ n, new Cls.Issue g (Node.address n))
      <$> filter (λ n, Address.type (Node.address n) = "ISSUE")
                 (Graph.all_nodes g)
  ∧ Repository.pullRequests this
    = (λ n, new Cls.PullRequest g (Node.address n))
        <$> filter (λ n, Address.type (Node.address n) = "PULL_REQUEST")
                   (Graph.all_nodes g)
  ∧ Repository.authors this
    = (λ n, new Cls.Author g (Node.address n))
        <$> filter (λ n, Address.type (Node.address n) = "AUTHOR")
                   (Graph.all_nodes g)
  ∧ ∀ other, graph other = g →
      Repository.issues other = Repository.issues this
      ∧ Repository.pullRequests other = Repository.pullRequests this
      ∧ Repository.authors other = Repository.authors this.
Proof.
  intros g. unfold Repository.issues, Repository.pullRequests,
    Repository.authors. rewrite !nodes_all_nodes. fold g.
  repeat split; try done; by intros; rewrite !nodes_all_nodes; subst g;
    match goal with Hg : graph _ = _ |- _ => rewrite Hg end.
Qed.

(** ** Repository lookup *)

Lemma find_by_address (l : list Node.t) (n : Node.t) :
  NoDup (Node.address <$> l) → n ∈ l →
  List.find (λ m, bool_decide (Node.address m = Node.address n)) l = Some n.
Proof.
  induction l as [|x l IH]; intros Hnd Hin; [by apply elem_of_nil in Hin|].
  rewrite fmap_cons in Hnd. apply NoDup_cons in Hnd as [Hx Hnd]. simpl.
  apply elem_of_cons in Hin as [->|Hin].
  - by rewrite bool_decide_true.
  - rewrite bool_decide_false; [by apply IH|].
    intros Heq. apply Hx. rewrite Heq. by apply list_elem_of_fmap_2.
Qed.

Lemma node_of_member g n :
  Graph.unique_nodes g → n ∈ Graph.all_nodes g →
  Graph.node g (Node.address n) = Some n.
Proof. apply find_by_address. Qed.

Lemma filterM_fmap_pure {A B} (f : A → B) (p : B → result bool)
    (q : A → bool) (l : list A) :
  Forall (λ x, p (f x) = Ok (q x)) l →
  filterM p (f <$> l) = Ok (f <$> List.filter q l).
Proof.
  induction 1 as [|x l Hx _ IH]; [done|].
  rewrite fmap_cons. cbn [filterM List.filter].
  rewrite Hx, IH. simpl. by destruct (q x).
Qed.

(** C9. In a graph whose node addresses are distinct, [repository(owner,
    name)] looks at the repository nodes whose payload has that owner and
    that name: with none it returns [undefined], with exactly one it
    returns the [Repository] of that node, with two or more it throws the
    multiple-repositories error. *)
Theorem repository_by_name (g : Graph.t) (owner name : string) :
  Graph.unique_nodes g →
  Porcelain.repository g owner name =
  match filter (λ n, Address.type (Node.address n) = "REPOSITORY"
                     ∧ prop (Node.payload n) "owner" = JStr owner
                     ∧ prop (Node.payload n) "name" = JStr name)
               (Graph.all_nodes g) with
  | [] => Ok None
  | [n] => Ok (Some (new Cls.Repository g (Node.address n)))
  | _ :: _ :: _ => Throw (MultipleRepositories owner name)
  end.
Proof.
  intros Hu. unfold Porcelain.repository, Porcelain.repositories.
  rewrite (filterM_fmap_pure _ _
    (λ n, bool_decide (prop (Node.payload n) "owner" = JStr owner
                       ∧ prop (Node.payload n) "name" = JStr name))).
  - rewrite List_filter_bool_decide, nodes_all_nodes, list_filter_filter.
    rewrite (list_filter_iff _
      (λ n, Address.type (Node.address n) = "REPOSITORY"
            ∧ prop (Node.payload n) "owner" = JStr owner
            ∧ prop (Node.payload n) "name" = JStr name)) by (intros; tauto).
    by destruct (filter _ _) as [|n [|n' l]].
  - apply Forall_forall. intros n Hn.
    rewrite nodes_all_nodes in Hn. apply list_elem_of_filter in Hn as [_ Hn].
    unfold Porcelain.named, Repository.owner, Repository.name,
      GithubEntity.node. simpl.
    rewrite (node_of_member _ _ Hu Hn). simpl. unfold strict_eq.
    destruct (decide (prop (Node.payload n) "owner" = JStr owner)) as [Ho|Ho].
    + rewrite (bool_decide_true _ Ho). simpl. f_equal.
      apply bool_decide_ext. tauto.
    + rewrite (bool_decide_false _ Ho). f_equal. symmetry.
      apply bool_decide_false. tauto.
Qed.

(** ** Neighborhood accessors of posts *)

Lemma query_cons (f : Graph.Neighbor → bool)
    (i : Edge.t → option Graph.Neighbor) (e : Edge.t) (l : list Edge.t) :
  List.filter f (omap i (e :: l))
  = match i e with
    | Some n => if f n then n :: List.filter f (omap i l)
                else List.filter f (omap i l)
    | None => List.filter f (omap i l)
    end.
Proof. cbn [omap list_omap]. by destruct (i e). Qed.

Lemma neighborhood_omitted_out g a et nt :
  Forall (λ e, Address.type (Edge.address e) = et →
               Address.type (Edge.src e) ≠ nt) (Graph.all_edges g) →
  Graph.neighborhood g a
    {| Graph.edgeType := Some et; Graph.nodeType := Some nt;
       Graph.direction := None |}
  = Graph.neighborhood g a
      {| Graph.edgeType := Some et; Graph.nodeType := Some nt;
         Graph.direction := Some Graph.OUT |}.
Proof.
  unfold Graph.neighborhood.
  cbn [Graph.edgeType Graph.nodeType Graph.direction].
  induction 1 as [|e l He _ IH]; [done|].
  rewrite !query_cons, IH. unfold Graph.incident. simpl.
  destruct (bool_decide (Edge.src e = a)); [done|].
  destruct (bool_decide (Edge.dst e = a)); [|done]. simpl.
  destruct (decide (Address.type (Edge.address e) = et)) as [Het|Het].
  - rewrite (bool_decide_true _ Het). simpl.
    by rewrite bool_decide_false by by apply He.
  - by rewrite (bool_decide_false _ Het).
Qed.

(** C7, as amended.  [authors()] of a post is the neighborhood query with
    edge type AUTHORS and neighbor type AUTHOR and with no direction
    criterion, each neighbor wrapped as [Author]; leaving the direction
    out is the same as asking for both directions, and the answer is that
    of the OUT query whenever no AUTHORS edge of the graph has an author
    node as its source. *)
Theorem post_authors_any_direction (this : Entity) :
  let g := graph this in
  let a := nodeAddress this in
  let wrap := λ n, new Cls.Author g (Graph.neighbor n) in
  Post.authors this = wrap <$> Graph.neighborhood g a (authors_query None)
  ∧ Post.authors this
    = wrap <$> Graph.neighborhood g a (authors_query (Some Graph.BOTH))
  ∧ (Forall (λ e, Address.type (Edge.address e) = "AUTHORS" →
                  Address.type (Edge.src e) ≠ "AUTHOR")
            (Graph.all_edges g) →
     Post.authors this
     = wrap <$> Graph.neighborhood g a (authors_query (Some Graph.OUT))).
Proof.
  intros g a wrap. repeat split.
  intros Hout. unfold Post.authors, authors_query.
  unfold AUTHORS_EDGE_TYPE, AUTHOR_NODE_TYPE. fold g a.
  by rewrite (neighborhood_omitted_out g a _ _ Hout).
Qed.

Section References.
Context `{Imports}.

Lemma asEntity_Throw_inv g a err :
  asEntity g a = Throw err →
  (err = WrongNamespace a ∧ Address.pluginName a ≠ PLUGIN_NAME)
  ∨ (err = UnknownEntityType a ∧ Address.pluginName a = PLUGIN_NAME
     ∧ ∀ V, Address.type a ≠ tag V).
Proof.
  unfold asEntity. intros He. repeat case_decide; simplify_eq.
  - by left.
  - right. split; [done|]. split; [done|].
    intros V. by destruct V.
Qed.

(** Mapping the dispatcher over neighbors stops at the first one that does
    not resolve. *)
Lemma resolve_all_foreign g (ns : list Graph.Neighbor) :
  (∃ n, n ∈ ns ∧ Address.pluginName (Graph.neighbor n) ≠ PLUGIN_NAME) →
  ∃ pre n post, ns = (pre ++ n :: post)%list
    ∧ Forall (λ m, is_Ok (asEntity g (Graph.neighbor m))) pre
    ∧ ((Address.pluginName (Graph.neighbor n) ≠ PLUGIN_NAME
        ∧ mapM (λ n, asEntity g (Graph.neighbor n)) ns
          = Throw (WrongNamespace (Graph.neighbor n)))
       ∨ (Address.pluginName (Graph.neighbor n) = PLUGIN_NAME
          ∧ (∀ V, Address.type (Graph.neighbor n) ≠ tag V)
          ∧ mapM (λ n, asEntity g (Graph.neighbor n)) ns
            = Throw (UnknownEntityType (Graph.neighbor n)))).
Proof.
  induction ns as [|x l IH]; intros (n & Hn & Hf).
  { by apply elem_of_nil in Hn. }
  cbn [mapM]. destruct (asEntity g (Graph.neighbor x)) as [y|err] eqn:Hx.
  - pose proof (asEntity_Ok_inv _ _ _ Hx) as (Hp & _).
    apply elem_of_cons in Hn as [->|Hn]; [done|].
    destruct IH as (pre & m & post & -> & Hpre & Hcase); [by exists n|].
    exists (x :: pre), m, post. split; [done|]. split.
    { apply Forall_cons. by rewrite Hx. }
    simpl. destruct Hcase as [[? ->]|(? & ? & ->)]; [by left|by right].
  - exists [], x, l. split; [done|]. split; [done|].
    simpl. apply asEntity_Throw_inv in Hx as [[-> ?]|(-> & ? & ?)];
      [by left|by right].
Qed.

(** C10, as amended.  [references()] resolves the OUT neighbors over
    REFERENCES edges one after the other; when one of them has a foreign
    plugin name the call throws and returns no reference at all.  What it
    throws is the error of the first neighbor that does not resolve: the
    wrong-plugin-name error of a foreign neighbor, or the invalid-type
    error of a neighbor of this plugin whose tag is none of the seven.
    When every neighbor of this plugin has one of the seven tags, it is
    the wrong-plugin-name error. *)
Theorem references_stops_at_unresolved (this : Entity) :
  let g := graph this in
  let ns := Graph.neighborhood g (nodeAddress this) references_query in
  (∃ n, n ∈ ns ∧ Address.pluginName (Graph.neighbor n) ≠ PLUGIN_NAME) →
  (∃ pre n post, ns = (pre ++ n :: post)%list
     ∧ Forall (λ m, is_Ok (asEntity g (Graph.neighbor m))) pre
     ∧ ((Address.pluginName (Graph.neighbor n) ≠ PLUGIN_NAME
         ∧ Post.references this = Throw (WrongNamespace (Graph.neighbor n)))
        ∨ (Address.pluginName (Graph.neighbor n) = PLUGIN_NAME
           ∧ (∀ V, Address.type (Graph.neighbor n) ≠ tag V)
           ∧ Post.references this
             = Throw (UnknownEntityType (Graph.neighbor n)))))
  ∧ ((∀ n, n ∈ ns → Address.pluginName (Graph.neighbor n) = PLUGIN_NAME →
        ∃ V, Address.type (Graph.neighbor n) = tag V) →
     ∃ n, n ∈ ns ∧ Address.pluginName (Graph.neighbor n) ≠ PLUGIN_NAME
       ∧ Post.references this = Throw (WrongNamespace (Graph.neighbor n))).
Proof.
  intros g ns Hforeign.
  destruct (resolve_all_foreign g ns Hforeign)
    as (pre & n & post & Hns & Hpre & Hcase).
  split; [by exists pre, n, post|].
  intros Hknown.
  assert (n ∈ ns) as Hn.
  { rewrite Hns. apply elem_of_app. right. apply elem_of_cons. by left. }
  destruct Hcase as [[Hf Hr]|(Hp & Hu & _)].
  - by exists n.
  - destruct (Hknown n Hn Hp) as [V HV]. by destruct (Hu V).
Qed.
End References.

(** * The properties on the example graphs *)

#[local] Existing Instance example_imports.

(** The example graphs are well formed. *)
Lemma example_graphs_wf :
  Graph.wf widgets ∧ Graph.wf authored_backwards
  ∧ Graph.wf milestone_then_commit.
Proof. repeat split; compute_done. Qed.

(** [asEntity] on an address of the git plugin and on the seven tags. *)
Lemma asEntity_dispatch_witness :
  asEntity widgets (git "COMMIT" "c0ffee")
  = Throw (WrongNamespace (git "COMMIT" "c0ffee"))
  ∧ asEntity widgets (github "PULL_REQUEST" "pull/1")
    = Ok (new Cls.PullRequest widgets (github "PULL_REQUEST" "pull/1"))
  ∧ asEntity milestone_then_commit (github "MILESTONE" "milestone/1")
    = Throw (UnknownEntityType (github "MILESTONE" "milestone/1")).
Proof.
  split; [|split].
  - apply (asEntity_dispatch widgets (git "COMMIT" "c0ffee")). compute_done.
  - by apply (asEntity_dispatch widgets (github "PULL_REQUEST" "pull/1")).
  - apply (asEntity_dispatch milestone_then_commit
             (github "MILESTONE" "milestone/1")); compute_done.
Defined.

Lemma asEntity_address_witness :
  asEntity widgets (github "ISSUE" "issues/1")
  = Ok (new Cls.Issue widgets (github "ISSUE" "issues/1"))
  ∧ GithubEntity.address (new Cls.Issue widgets (github "ISSUE" "issues/1"))
    = github "ISSUE" "issues/1".
Proof.
  split; [reflexivity|].
  apply (asEntity_address widgets). reflexivity.
Defined.

(** No node of [widgets] has the address of this comment. *)
Lemma dangling_address_fails_on_access_witness :
  let ghost := github "COMMENT" "comments/404" in
  Graph.node widgets ghost = None
  ∧ asEntity widgets ghost = Ok (new Cls.Comment widgets ghost)
  ∧ GithubEntity.url (new Cls.Comment widgets ghost) = Throw MissingPayload
  ∧ Post.body (new Cls.Comment widgets ghost) = Throw MissingPayload.
Proof.
  intros ghost.
  assert (Graph.node widgets ghost = None) as Hnone by reflexivity.
  assert (asEntity widgets ghost = Ok (new Cls.Comment widgets ghost))
    as Hok by reflexivity.
  destruct (dangling_address_fails_on_access widgets ghost _ Hnone Hok)
    as (_ & Hurl & Hbody).
  split; [exact Hnone|]. split; [exact Hok|].
  split; [exact Hurl | exact (Hbody I)].
Defined.

(** [Repository] has no [from]: the call throws although the tag of the
    entity is the tag of the class. *)
Lemma repository_has_no_from :
  let e := new Cls.Repository widgets (github "REPOSITORY" "acme/widgets") in
  GithubEntity.type e = tag Cls.Repository
  ∧ call_from Cls.Repository e = Throw (NotAFunction "from")
  ∧ call_from Cls.Repository e ≠ Ok e.
Proof. by repeat split. Qed.

Lemma from_narrows_witness :
  let pull := new Cls.PullRequest widgets (github "PULL_REQUEST" "pull/1") in
  let issue := new Cls.Issue widgets (github "ISSUE" "issues/1") in
  static_from Cls.PullRequest = Some PullRequest.from
  ∧ PullRequest.from pull = Ok pull
  ∧ PullRequest.from issue
    = Throw (TypeMismatch (github "ISSUE" "issues/1") "PULL_REQUEST").
Proof.
  intros pull issue. split; [reflexivity|]. split.
  - apply (from_narrows Cls.PullRequest PullRequest.from pull eq_refl).
    reflexivity.
  - apply (from_narrows Cls.PullRequest PullRequest.from issue eq_refl).
    compute_done.
Defined.

(** Issue #1 and pull request #1: the pull request is returned. *)
Lemma issueOrPRByNumber_last_match_witness :
  let r := new Cls.Repository widgets (github "REPOSITORY" "acme/widgets") in
  Repository.issueOrPRByNumber r 1
  = Some (new Cls.PullRequest widgets (github "PULL_REQUEST" "pull/1"))
  ∧ Repository.issueOrPRByNumber r 2 = None.
Proof.
  intros r. split.
  - rewrite (proj1 (proj2 (issueOrPRByNumber_last_match r 1))).
    + by vm_compute.
    + by vm_compute.
  - apply (issueOrPRByNumber_last_match r 2); by vm_compute.
Defined.

Lemma repository_by_name_witness :
  Graph.unique_nodes widgets
  ∧ Porcelain.repository widgets "acme" "widgets"
    = Ok (Some (new Cls.Repository widgets
                  (github "REPOSITORY" "acme/widgets")))
  ∧ Porcelain.repository widgets "acme" "gadgets" = Ok None.
Proof.
  assert (Graph.unique_nodes widgets) as Hu by compute_done.
  split; [exact Hu|]. split.
  - rewrite (repository_by_name widgets "acme" "widgets" Hu). by vm_compute.
  - rewrite (repository_by_name widgets "acme" "gadgets" Hu). by vm_compute.
Defined.

(** In [authored_backwards] the AUTHORS edge enters the issue: [authors()]
    returns the author, the OUT query returns nothing. *)
Lemma authors_follows_incoming_edge :
  let g := authored_backwards in
  let this := new Cls.Issue g (github "ISSUE" "issues/1") in
  let out :=
    (λ n, new Cls.Author g (Graph.neighbor n))
      <$> Graph.neighborhood g (github "ISSUE" "issues/1")
            (authors_query (Some Graph.OUT)) in
  Post.authors this = [new Cls.Author g (github "AUTHOR" "alice")]
  ∧ out = []
  ∧ Post.authors this ≠ out.
Proof. by repeat split. Qed.

(** In [widgets] the AUTHORS edge leaves the issue, and the three queries
    agree. *)
Lemma post_authors_any_direction_witness :
  let this := new Cls.Issue widgets (github "ISSUE" "issues/1") in
  let wrap := λ n, new Cls.Author widgets (Graph.neighbor n) in
  Post.authors this = [new Cls.Author widgets (github "AUTHOR" "alice")]
  ∧ Post.authors this
    = wrap <$> Graph.neighborhood widgets (github "ISSUE" "issues/1")
                 (authors_query (Some Graph.OUT)).
Proof.
  intros this wrap. split; [reflexivity|].
  apply (post_authors_any_direction this).
  apply (bool_decide_unpack _). by vm_compute.
Defined.

(** In [milestone_then_commit] the issue refers to a commit of the git
    plugin, yet [references()] throws the invalid-type error of the
    milestone, which comes first. *)
Lemma references_invalid_type_first :
  let g := milestone_then_commit in
  let this := new Cls.Issue g (github "ISSUE" "issues/1") in
  Graph.neighbor
    <$> Graph.neighborhood g (github "ISSUE" "issues/1") references_query
  = [github "MILESTONE" "milestone/1"; git "COMMIT" "c0ffee"]
  ∧ Address.pluginName (git "COMMIT" "c0ffee") ≠ PLUGIN_NAME
  ∧ Post.references this
    = Throw (UnknownEntityType (github "MILESTONE" "milestone/1"))
  ∧ ∀ a, Post.references this ≠ Throw (WrongNamespace a).
Proof. by repeat split. Qed.

(** In [widgets] the issue refers to the pull request, then to the commit
    of the git plugin. *)
Lemma references_stops_at_unresolved_witness :
  let this := new Cls.Issue widgets (github "ISSUE" "issues/1") in
  let ns :=
    Graph.neighborhood widgets (github "ISSUE" "issues/1") references_query in
  (∃ n, n ∈ ns ∧ Address.pluginName (Graph.neighbor n) ≠ PLUGIN_NAME)
  ∧ Post.references this = Throw (WrongNamespace (git "COMMIT" "c0ffee"))
  ∧ ∃ n, n ∈ ns ∧ Address.pluginName (Graph.neighbor n) ≠ PLUGIN_NAME
      ∧ Post.references this = Throw (WrongNamespace (Graph.neighbor n)).
Proof.
  intros this ns.
  assert (∃ n, n ∈ ns ∧ Address.pluginName (Graph.neighbor n) ≠ PLUGIN_NAME)
    as Hforeign.
  { exists {| Graph.edge :=
                Edge.mk (github "REFERENCES" "e4")
                  (github "ISSUE" "issues/1") (git "COMMIT" "c0ffee") ∅;
              Graph.neighbor := git "COMMIT" "c0ffee" |}.
    split; [|compute_done].
    apply (list_elem_of_lookup_2 _ 1%nat). reflexivity. }
  split; [exact Hforeign|]. split; [reflexivity|].
  apply (references_stops_at_unresolved this Hforeign).
  intros n Hn Hown. apply list_elem_of_lookup in Hn as [i Hi].
  destruct i as [|[|i]]; vm_compute in Hi; simplify_eq.
  by exists Cls.PullRequest.
Defined.

(** * Further properties of the porcelain *)

(** ** Resolution and narrowing *)

Lemma tag_inj (V W : Cls.t) : tag V = tag W → V = W.
Proof. by destruct V, W. Qed.

Lemma from_accepts (V : Cls.t) (f : Entity → result Entity) (e : Entity) :
  static_from V = Some f →
  f e = if decide (GithubEntity.type e = tag V) then Ok e
        else Throw (TypeMismatch (GithubEntity.address e) (tag V)).
Proof.
  intros Hf.
  destruct V; simplify_eq/=;
    unfold Issue.from, PullRequest.from, Comment.from, Author.from,
      PullRequestReview.from, PullRequestReviewComment.from,
      assertEntityType;
    repeat case_decide; simpl; congruence.
Qed.

Section Narrowing.
Context `{Imports}.

(** X1. [asEntity] returns exactly the wrapper of the class that belongs to
    the tag, around the graph and the address it was given, and only for
    addresses of this plugin; resolving the address of the entity it
    returned, against the graph of that entity, gives the same entity
    again. *)
Theorem asEntity_characterised (g : Graph.t) (a : Address.t) (e : Entity) :
  (asEntity g a = Ok e ↔
   Address.pluginName a = PLUGIN_NAME ∧ well_tagged e
   ∧ graph e = g ∧ nodeAddress e = a)
  ∧ (asEntity g a = Ok e →
     asEntity (graph e) (GithubEntity.address e) = Ok e).
Proof.
  assert (asEntity g a = Ok e ↔
          Address.pluginName a = PLUGIN_NAME ∧ well_tagged e
          ∧ graph e = g ∧ nodeAddress e = a) as Hiff.
  { split.
    - intros He. apply asEntity_Ok_inv in He as (Hp & Hg & Ha & Ht).
      unfold well_tagged, GithubEntity.type. by rewrite Ha.
    - intros (Hp & Ht & Hg & Ha). destruct e as [V g' a']. simpl in *.
      subst g' a'. by apply asEntity_own_tag. }
  split; [exact Hiff|].
  intros He. apply Hiff in He as (Hp & Ht & Hg & Ha).
  unfold GithubEntity.address. by rewrite Hg, Ha, Hiff.
Qed.

(** X2. Of the six [from] functions, the one that accepts an entity
    returned by [asEntity] is the one of the class [asEntity] chose. *)
Theorem asEntity_then_from (g : Graph.t) (a : Address.t) (e : Entity)
    (V : Cls.t) (f : Entity → result Entity) :
  asEntity g a = Ok e →
  static_from V = Some f →
  (f e = Ok e ↔ V = cls e).
Proof.
  intros He Hf. apply asEntity_Ok_inv in He as (_ & _ & Ha & Ht).
  rewrite (from_accepts V f e Hf). unfold GithubEntity.type. rewrite Ha, Ht.
  case_decide as Htag.
  - apply tag_inj in Htag. by split.
  - split; [done|]. intros ->. by destruct Htag.
Qed.
End Narrowing.

(** X3. An entity accepted by the [from] of one class makes the [from] of
    every other class throw the expected-type error. *)
Theorem from_exclusive (V W : Cls.t) (f h : Entity → result Entity)
    (e : Entity) :
  static_from V = Some f → static_from W = Some h → V ≠ W →
  f e = Ok e →
  h e = Throw (TypeMismatch (GithubEntity.address e) (tag W)).
Proof.
  intros Hf Hh Hne. rewrite (from_accepts V f e Hf), (from_accepts W h e Hh).
  repeat case_decide; try done. intros _. destruct Hne. apply tag_inj.
  congruence.
Qed.

(** ** What the accessors return *)

Lemma from_well_tagged (V : Cls.t) (f : Entity → result Entity) (e : Entity) :
  static_from V = Some f → cls e = V → well_tagged e → f e = Ok e.
Proof.
  intros Hf <- Ht. rewrite (from_accepts _ f e Hf). by rewrite decide_True.
Qed.

Lemma nodes_wrapped_tagged g (V : Cls.t) :
  Forall well_tagged
    ((λ n, new V g (Node.address n)) <$> Graph.nodes g (tag V)).
Proof.
  apply Forall_fmap, Forall_forall. intros n Hn.
  rewrite nodes_all_nodes in Hn. by apply list_elem_of_filter in Hn as [Hn _].
Qed.

Lemma neighborhood_neighbor_type g a et nt d n :
  n ∈ Graph.neighborhood g a (typed_query et nt d) →
  Address.type (Graph.neighbor n) = nt.
Proof.
  unfold Graph.neighborhood. simpl. intros Hn.
  apply list_elem_of_In, filter_In in Hn as [_ Hn].
  apply andb_prop in Hn as [_ Hn]. by apply bool_decide_eq_true in Hn.
Qed.

Lemma neighbors_wrapped_tagged g a et d (V : Cls.t) :
  Forall well_tagged
    ((λ n, new V g (Graph.neighbor n))
       <$> Graph.neighborhood g a (typed_query et (tag V) d)).
Proof.
  apply Forall_fmap, Forall_forall. intros n Hn.
  by apply neighborhood_neighbor_type in Hn.
Qed.

(** X4. Every entity returned by the scans of a repository is accepted by
    the [from] of its class: [Issue.from] for [issues()], [PullRequest.from]
    for [pullRequests()], [Author.from] for [authors()]; the entities of
    [repositories()] carry the tag REPOSITORY. *)
Theorem scan_results_narrow (this : Entity) :
  Forall (λ e, Issue.from e = Ok e) (Repository.issues this)
  ∧ Forall (λ e, PullRequest.from e = Ok e) (Repository.pullRequests this)
  ∧ Forall (λ e, Author.from e = Ok e) (Repository.authors this)
  ∧ Forall (λ e, cls e = Cls.Repository
                 ∧ GithubEntity.type e = "REPOSITORY")
           (Porcelain.repositories (graph this)).
Proof.
  repeat split.
  - apply Forall_forall. intros e He.
    apply (from_well_tagged Cls.Issue); [done| |].
    + by apply list_elem_of_fmap in He as (n & -> & _).
    + revert e He. apply Forall_forall, (nodes_wrapped_tagged _ Cls.Issue).
  - apply Forall_forall. intros e He.
    apply (from_well_tagged Cls.PullRequest); [done| |].
    + by apply list_elem_of_fmap in He as (n & -> & _).
    + revert e He.
      apply Forall_forall, (nodes_wrapped_tagged _ Cls.PullRequest).
  - apply Forall_forall. intros e He.
    apply (from_well_tagged Cls.Author); [done| |].
    + by apply list_elem_of_fmap in He as (n & -> & _).
    + revert e He. apply Forall_forall, (nodes_wrapped_tagged _ Cls.Author).
  - apply Forall_forall. intros e He.
    apply list_elem_of_fmap in He as (n & -> & Hn). split; [done|].
    rewrite nodes_all_nodes in Hn.
    by apply list_elem_of_filter in Hn as [Hn _].
Qed.

(** X5. Every entity returned by a neighborhood accessor is accepted by the
    [from] of the class it was wrapped in: [Author.from] for
    [Post.authors()], [Comment.from] for [Commentable.comments()],
    [PullRequestReview.from] for [PullRequest.reviews()] and
    [PullRequestReviewComment.from] for [PullRequestReview.comments()]. *)
Theorem neighbor_results_narrow (this : Entity) :
  Forall (λ e, Author.from e = Ok e) (Post.authors this)
  ∧ Forall (λ e, Comment.from e = Ok e) (Commentable.comments this)
  ∧ Forall (λ e, PullRequestReview.from e = Ok e) (PullRequest.reviews this)
  ∧ Forall (λ e, PullRequestReviewComment.from e = Ok e)
           (PullRequestReview.comments this).
Proof.
  repeat split; apply Forall_forall; intros e He.
  - apply (from_well_tagged Cls.Author); [done| |].
    + by apply list_elem_of_fmap in He as (n & -> & _).
    + revert e He.
      apply Forall_forall, (neighbors_wrapped_tagged _ _ _ _ Cls.Author).
  - apply (from_well_tagged Cls.Comment); [done| |].
    + by apply list_elem_of_fmap in He as (n & -> & _).
    + revert e He.
      apply Forall_forall, (neighbors_wrapped_tagged _ _ _ _ Cls.Comment).
  - apply (from_well_tagged Cls.PullRequestReview); [done| |].
    + by apply list_elem_of_fmap in He as (n & -> & _).
    + revert e He.
      apply Forall_forall,
        (neighbors_wrapped_tagged _ _ _ _ Cls.PullRequestReview).
  - apply (from_well_tagged Cls.PullRequestReviewComment); [done| |].
    + by apply list_elem_of_fmap in He as (n & -> & _).
    + revert e He.
      apply Forall_forall,
        (neighbors_wrapped_tagged _ _ _ _ Cls.PullRequestReviewComment).
Qed.

(** ** Payloads behind the scans *)

Lemma node_is_Some g n :
  n ∈ Graph.all_nodes g → is_Some (Graph.node g (Node.address n)).
Proof.
  intros Hn. unfold Graph.node.
  destruct (List.find _ _) as [m|] eqn:Hfind; [by eexists|].
  apply list_elem_of_In in Hn. apply (find_none _ _ Hfind n) in Hn.
  by rewrite bool_decide_true in Hn.
Qed.

Lemma scanned_node_is_Some g (c : Cls.t) type e :
  e ∈ (λ n, new c g (Node.address n)) <$> Graph.nodes g type →
  is_Some (GithubEntity.node e).
Proof.
  intros He. apply list_elem_of_fmap in He as (n & -> & Hn).
  rewrite nodes_all_nodes in Hn. apply list_elem_of_filter in Hn as [_ Hn].
  by apply node_is_Some.
Qed.

Lemma field_ok (e : Entity) (f : string) :
  is_Some (GithubEntity.node e) →
  is_Ok (p ← payload_of (GithubEntity.node e); Ok (prop p f)).
Proof. by intros [n ->]. Qed.

(** X6. The entities returned by [issues()], [pullRequests()], [authors()]
    and [repositories()] always have a node behind them: none of their
    field accessors throws. *)
Theorem scan_results_have_payload (this : Entity) :
  Forall (λ e, is_Ok (GithubEntity.url e) ∧ is_Ok (Post.body e)
               ∧ is_Ok (Issue.number e) ∧ is_Ok (Issue.title e))
         (Repository.issues this)
  ∧ Forall (λ e, is_Ok (GithubEntity.url e) ∧ is_Ok (Post.body e)
                 ∧ is_Ok (PullRequest.number e)
                 ∧ is_Ok (PullRequest.title e))
           (Repository.pullRequests this)
  ∧ Forall (λ e, is_Ok (GithubEntity.url e) ∧ is_Ok (Author.login e)
                 ∧ is_Ok (Author.subtype e))
           (Repository.authors this)
  ∧ Forall (λ e, is_Ok (GithubEntity.url e) ∧ is_Ok (Repository.owner e)
                 ∧ is_Ok (Repository.name e))
           (Porcelain.repositories (graph this)).
Proof.
  repeat split; apply Forall_forall; intros e He;
    apply scanned_node_is_Some in He; repeat split; by apply field_ok.
Qed.

Lemma issueOrPRByNumber_eq (this : Entity) (n : Z) :
  Repository.issueOrPRByNumber this n
  = last (((λ x, new Cls.Issue (graph this) (Node.address x))
             <$> numbered (graph this) "ISSUE" n)
          ++ ((λ x, new Cls.PullRequest (graph this) (Node.address x))
                <$> numbered (graph this) "PULL_REQUEST" n)).
Proof.
  unfold Repository.issueOrPRByNumber. rewrite !overwrite_last.
  rewrite !numbered_nodes, last_app.
  unfold ISSUE_NODE_TYPE, PULL_REQUEST_NODE_TYPE.
  destruct (last (_ <$> numbered (graph this) "PULL_REQUEST" n)); [done|].
  by destruct (last _).
Qed.

Lemma last_elem_of {A} (l : list A) (x : A) : last l = Some x → x ∈ l.
Proof.
  intros Hl. apply last_Some in Hl as [l' ->].
  apply elem_of_app. right. by apply elem_of_cons; left.
Qed.

(** X7. In a graph whose node addresses are distinct, the entity found by
    [issueOrPRByNumber(n)] is an [Issue] or a [PullRequest] whose
    [number()] is [n]. *)
Theorem issueOrPRByNumber_number (this e : Entity) (n : Z) :
  Graph.unique_nodes (graph this) →
  Repository.issueOrPRByNumber this n = Some e →
  (cls e = Cls.Issue ∧ Issue.number e = Ok (JNum n))
  ∨ (cls e = Cls.PullRequest ∧ PullRequest.number e = Ok (JNum n)).
Proof.
  intros Hu He. rewrite issueOrPRByNumber_eq in He.
  apply last_elem_of, elem_of_app in He as [He|He];
    apply list_elem_of_fmap in He as (x & -> & Hx);
    apply list_elem_of_filter in Hx as [[_ Hnum] Hx];
    [left|right]; (split; [done|]);
    unfold Issue.number, PullRequest.number, GithubEntity.node; simpl;
    rewrite (node_of_member _ _ Hu Hx); simpl; by rewrite Hnum.
Qed.

(** X8. [issueOrPRByNumber(n)] finds an entity exactly when some issue or
    pull-request node of the graph has the number [n], and what it finds is
    one of the entities of [issues()] or [pullRequests()]. *)
Theorem issueOrPRByNumber_found (this : Entity) (n : Z) :
  (is_Some (Repository.issueOrPRByNumber this n) ↔
   ∃ x, x ∈ Graph.all_nodes (graph this)
        ∧ (Address.type (Node.address x) = "ISSUE"
           ∨ Address.type (Node.address x) = "PULL_REQUEST")
        ∧ prop (Node.payload x) "number" = JNum n)
  ∧ ∀ e, Repository.issueOrPRByNumber this n = Some e →
         e ∈ Repository.issues this ∨ e ∈ Repository.pullRequests this.
Proof.
  rewrite issueOrPRByNumber_eq. split.
  - rewrite <- not_eq_None_Some, last_None. split.
    + intros Hne.
      destruct (numbered (graph this) "ISSUE" n) as [|x l] eqn:Hi.
      * destruct (numbered (graph this) "PULL_REQUEST" n) as [|x l] eqn:Hp;
          [done|].
        assert (x ∈ numbered (graph this) "PULL_REQUEST" n) as Hx
          by (rewrite Hp; by apply elem_of_cons; left).
        apply list_elem_of_filter in Hx as [[? ?] ?]. exists x. tauto.
      * assert (x ∈ numbered (graph this) "ISSUE" n) as Hx
          by (rewrite Hi; by apply elem_of_cons; left).
        apply list_elem_of_filter in Hx as [[? ?] ?]. exists x. tauto.
    + intros (x & Hx & [Ht|Ht] & Hnum) Hnil;
        apply app_eq_nil in Hnil as [Hi Hp];
        apply fmap_nil_inv in Hi; apply fmap_nil_inv in Hp.
      * assert (x ∈ numbered (graph this) "ISSUE" n) as Hin
          by by apply list_elem_of_filter.
        rewrite Hi in Hin. by apply elem_of_nil in Hin.
      * assert (x ∈ numbered (graph this) "PULL_REQUEST" n) as Hin
          by by apply list_elem_of_filter.
        rewrite Hp in Hin. by apply elem_of_nil in Hin.
  - intros e He.
    apply last_elem_of, elem_of_app in He as [He|He];
      apply list_elem_of_fmap in He as (x & -> & Hx);
      apply list_elem_of_filter in Hx as [[Ht _] Hx]; [left|right];
      unfold Repository.issues, Repository.pullRequests;
      rewrite nodes_all_nodes;
      apply list_elem_of_fmap; exists x; (split; [done|]);
      by apply list_elem_of_filter.
Qed.

(** ** Looking a repository up *)

Lemma filterM_Ok_inv {A} (p : A → result bool) (l ys : list A) :
  filterM p l = Ok ys → ∀ y, y ∈ ys → y ∈ l ∧ p y = Ok true.
Proof.
  revert ys. induction l as [|x l IH]; intros ys Hf y Hy.
  { simpl in Hf. simplify_eq. by apply elem_of_nil in Hy. }
  cbn [filterM] in Hf.
  destruct (p x) as [b|] eqn:Hx; [|done]. simpl in Hf.
  destruct (filterM p l) as [zs|]; [|done]. simpl in Hf. simplify_eq.
  destruct b.
  - apply elem_of_cons in Hy as [->|Hy].
    + split; [by apply elem_of_cons; left|done].
    + destruct (IH zs eq_refl y Hy). split; [by apply elem_of_cons; right|done].
  - destruct (IH zs eq_refl y Hy). split; [by apply elem_of_cons; right|done].
Qed.

Lemma filterM_total {A} (p : A → result bool) (l : list A) :
  Forall (λ x, is_Ok (p x)) l → is_Ok (filterM p l).
Proof.
  induction 1 as [|x l Hx _ IH]; [done|]. cbn [filterM].
  destruct (p x); [|done]. simpl. by destruct (filterM p l).
Qed.

Lemma named_total g owner name :
  Forall (λ r, is_Ok (Porcelain.named owner name r))
         (Porcelain.repositories g).
Proof.
  apply Forall_forall. intros r Hr.
  apply scanned_node_is_Some in Hr as [n Hn].
  unfold Porcelain.named, Repository.owner, Repository.name.
  rewrite Hn. simpl. by destruct (strict_eq _ _).
Qed.

Lemma named_true owner name r :
  Porcelain.named owner name r = Ok true →
  Repository.owner r = Ok (JStr owner) ∧ Repository.name r = Ok (JStr name).
Proof.
  unfold Porcelain.named, strict_eq.
  destruct (Repository.owner r) as [o|]; [|done]. simpl.
  case_bool_decide as Ho; [|done]. subst o.
  destruct (Repository.name r) as [n|]; [|done]. simpl.
  intros Hn. split; [done|]. f_equal.
  apply (bool_decide_eq_true (n = JStr name)). congruence.
Qed.

(** X9. The repository returned by [repository(owner, name)] is one of
    [repositories()], and its [owner()] and [name()] are the two
    arguments. *)
Theorem repository_result_matches (g : Graph.t) (owner name : string)
    (r : Entity) :
  Porcelain.repository g owner name = Ok (Some r) →
  r ∈ Porcelain.repositories g
  ∧ Repository.owner r = Ok (JStr owner)
  ∧ Repository.name r = Ok (JStr name).
Proof.
  unfold Porcelain.repository.
  destruct (filterM _ _) as [repo|] eqn:Hf; [|done]. simpl.
  case_decide; [done|]. intros Hr. simplify_eq.
  apply list_elem_of_lookup_2 in Hr.
  destruct (filterM_Ok_inv _ _ _ Hf r Hr) as [Hin Hnamed].
  split; [done|]. by apply named_true.
Qed.

(** X10. Whatever the graph, the only exception [repository(owner, name)]
    raises is the multiple-repositories error: reading the owner and the
    name of the scanned repositories never throws. *)
Theorem repository_only_error (g : Graph.t) (owner name : string)
    (err : error) :
  Porcelain.repository g owner name = Throw err →
  err = MultipleRepositories owner name.
Proof.
  unfold Porcelain.repository.
  pose proof (filterM_total _ _ (named_total g owner name)) as Hok.
  destruct (filterM _ _) as [repo|]; [|done]. simpl.
  case_decide; congruence.
Qed.

(** ** Entities without a node *)

Lemma omap_incident_none a d (l : list Edge.t) :
  Forall (λ e, Edge.src e ≠ a ∧ Edge.dst e ≠ a) l →
  omap (Graph.incident a d) l = [].
Proof.
  induction 1 as [|e l [Hs Hd] _ IH]; [done|].
  cbn [omap list_omap]. unfold Graph.incident at 1.
  rewrite (bool_decide_false _ Hs), (bool_decide_false _ Hd), !andb_false_r.
  apply IH.
Qed.

Lemma neighborhood_dangling g a o :
  Graph.closed g → Graph.node g a = None → Graph.neighborhood g a o = [].
Proof.
  intros Hc Hnone. unfold Graph.neighborhood.
  rewrite omap_incident_none; [done|].
  eapply Forall_impl; [exact Hc|]. simpl.
  intros e [[n Hs] [m Hd]]. split; intros <-; congruence.
Qed.

Section Dangling.
Context `{Imports}.

(** X11. In a graph none of whose edges refers to a missing node, the
    relationship accessors of an entity whose address has no node do not
    throw: the lists are empty, [references()] returns an empty array and
    [mergeCommitHash()] returns [null]. *)
Theorem dangling_relationships_empty (this : Entity) :
  Graph.closed (graph this) →
  GithubEntity.node this = None →
  Post.authors this = []
  ∧ Commentable.comments this = []
  ∧ PullRequest.reviews this = []
  ∧ PullRequestReview.comments this = []
  ∧ Post.references this = Ok []
  ∧ PullRequest.mergeCommitHash this = Ok JNull.
Proof.
  intros Hc Hnone.
  unfold Post.authors, Commentable.comments, PullRequest.reviews,
    PullRequestReview.comments, Post.references,
    PullRequest.mergeCommitHash.
  by rewrite !(neighborhood_dangling _ _ _ Hc Hnone).
Qed.

(** X12. The only exception [mergeCommitHash()] raises is the
    too-many-edges error, and then at least two MERGED_AS edges leave the
    pull request for a commit node; a value it returns is [null] or the
    [hash] property of such an edge. *)
Theorem mergeCommitHash_outcomes (this : Entity) :
  let merged e :=
    Edge.src e = nodeAddress this
    ∧ Address.type (Edge.address e) = "MERGED_AS"
    ∧ Address.type (Edge.dst e) = COMMIT_NODE_TYPE in
  (∀ err, PullRequest.mergeCommitHash this = Throw err →
     err = InvariantViolation (Address.id (nodeAddress this))
     ∧ (2 ≤ length (filter merged (Graph.all_edges (graph this))))%nat)
  ∧ (∀ v, PullRequest.mergeCommitHash this = Ok v →
       v = JNull
       ∨ ∃ e, e ∈ Graph.all_edges (graph this) ∧ merged e
              ∧ v = prop (Edge.payload e) "hash").
Proof.
  intros merged. unfold PullRequest.mergeCommitHash.
  rewrite neighborhood_out_edges. unfold MERGED_AS_EDGE_TYPE. fold merged.
  destruct (filter merged _) as [|e [|e' l]] eqn:Hm; simpl; split;
    intros x Hx; simplify_eq.
  - by left.
  - right. exists e.
    assert (e ∈ filter merged (Graph.all_edges (graph this))) as He
      by (rewrite Hm; by apply elem_of_cons; left).
    apply list_elem_of_filter in He as [? ?]. tauto.
  - split; [done|]. simpl. lia.
Qed.
End Dangling.

(** ** Direction of the containment accessors *)

Lemma neighborhood_omitted_out_at g a et nt :
  Forall (λ e, Address.type (Edge.address e) = et → Edge.dst e = a →
               Address.type (Edge.src e) ≠ nt) (Graph.all_edges g) →
  Graph.neighborhood g a (typed_query et nt None)
  = Graph.neighborhood g a (typed_query et nt (Some Graph.OUT)).
Proof.
  unfold Graph.neighborhood, typed_query.
  cbn [Graph.edgeType Graph.nodeType Graph.direction].
  induction 1 as [|e l He _ IH]; [done|].
  rewrite !query_cons, IH. unfold Graph.incident. simpl.
  destruct (bool_decide (Edge.src e = a)); [done|].
  destruct (decide (Edge.dst e = a)) as [Hd|Hd].
  - rewrite (bool_decide_true _ Hd). simpl.
    destruct (decide (Address.type (Edge.address e) = et)) as [Het|Het].
    + rewrite (bool_decide_true _ Het). simpl.
      by rewrite bool_decide_false by by apply He.
    + by rewrite (bool_decide_false _ Het).
  - by rewrite (bool_decide_false _ Hd).
Qed.

(** X13. [comments()] of an issue or pull request, [reviews()] of a pull
    request and [comments()] of a review pass no direction to the
    neighborhood query.  Each equals the OUT query when no CONTAINS edge
    enters the entity from a node of the neighbor type it asks for. *)
Theorem containment_accessors_out (this : Entity) :
  let g := graph this in
  let a := nodeAddress this in
  let none_enters nt :=
    Forall (λ e, Address.type (Edge.address e) = "CONTAINS" →
                 Edge.dst e = a → Address.type (Edge.src e) ≠ nt)
           (Graph.all_edges g) in
  let out nt := Graph.neighborhood g a
                  (typed_query "CONTAINS" nt (Some Graph.OUT)) in
  (none_enters "COMMENT" →
   Commentable.comments this
   = (λ n, new Cls.Comment g (Graph.neighbor n)) <$> out "COMMENT")
  ∧ (none_enters "PULL_REQUEST_REVIEW" →
     PullRequest.reviews this
     = (λ n, new Cls.PullRequestReview g (Graph.neighbor n))
         <$> out "PULL_REQUEST_REVIEW")
  ∧ (none_enters "PULL_REQUEST_REVIEW_COMMENT" →
     PullRequestReview.comments this
     = (λ n, new Cls.PullRequestReviewComment g (Graph.neighbor n))
         <$> out "PULL_REQUEST_REVIEW_COMMENT").
Proof.
  intros g a none_enters out. repeat split; intros Hnone; unfold out;
    rewrite <- (neighborhood_omitted_out_at g a _ _ Hnone); done.
Qed.

(** ** References that resolve *)

Lemma mapM_Ok_Forall2 {A B} (f : A → result B) (l : list A) (k : list B) :
  mapM f l = Ok k ↔ Forall2 (λ x y, f x = Ok y) l k.
Proof.
  revert k. induction l as [|x l IH]; intros k; cbn [mapM].
  - unfold mret, result_ret.
    split; [intros Hk; simplify_eq; constructor|by inversion 1].
  - destruct (f x) as [y|err] eqn:Hx; simpl.
    + destruct (mapM f l) as [k'|err] eqn:Hl; simpl;
        unfold mret, result_ret.
      * split.
        -- intros Hk. simplify_eq. constructor; [done|]. by apply IH.
        -- inversion 1 as [|? y' ? k'' Hy Hk']; subst.
           apply IH in Hk'. congruence.
      * split; [done|]. inversion 1 as [|? y' ? k'' Hy Hk']; subst.
        apply IH in Hk'. congruence.
    + split; [done|]. inversion 1; congruence.
Qed.

Section Resolved.
Context `{Imports}.

(** X14. When [references()] returns, it returns one entity per OUT
    neighbor over a REFERENCES edge, in the same order, each around the
    same graph, at the address of its neighbor and of the class that
    belongs to its tag; and it returns exactly when every such neighbor is
    an address of this plugin with one of the seven tags. *)
Theorem references_resolved (this : Entity) :
  let g := graph this in
  let ns := Graph.neighborhood g (nodeAddress this) references_query in
  (∀ es, Post.references this = Ok es →
     GithubEntity.address <$> es = Graph.neighbor <$> ns
     ∧ Forall (λ e, graph e = g ∧ well_tagged e) es)
  ∧ (is_Ok (Post.references this) ↔
     Forall (λ n, Address.pluginName (Graph.neighbor n) = PLUGIN_NAME
                  ∧ ∃ V, Address.type (Graph.neighbor n) = tag V) ns).
Proof.
  intros g ns. unfold Post.references. fold g. change (Graph.neighborhood _ _ _) with ns.
  split.
  - intros es Hes. apply mapM_Ok_Forall2 in Hes.
    induction Hes as [|n e ns' es' Hne _ [IH1 IH2]]; [done|].
    apply asEntity_Ok_inv in Hne as (Hp & Hg & Ha & Ht).
    split.
    + rewrite !fmap_cons. unfold GithubEntity.address at 1. by rewrite Ha, IH1.
    + constructor; [|done]. split; [done|].
      unfold well_tagged, GithubEntity.type. by rewrite Ha.
  - split.
    + destruct (mapM _ ns) as [es|] eqn:Hes; [|done]. intros _.
      apply mapM_Ok_Forall2 in Hes.
      induction Hes as [|n e ns' es' Hne _ IH]; constructor; [|done].
      apply asEntity_Ok_inv in Hne as (Hp & Hg & Ha & Ht).
      split; [done|]. by exists (cls e).
    + intros Hall.
      assert (∃ es, mapM (λ n, asEntity g (Graph.neighbor n)) ns = Ok es)
        as [es ->]; [|done].
      induction Hall as [|n ns' [Hp [V HV]] _ [es IH]].
      * by exists [].
      * exists (new V g (Graph.neighbor n) :: es). cbn [mapM].
        by rewrite (asEntity_own_tag g _ V Hp HV), IH.
Qed.
End Resolved.

(** ** Fields of scanned entities *)

Lemma scanned_field g (c : Cls.t) (type f : string) :
  Graph.unique_nodes g →
  (λ e, p ← payload_of (GithubEntity.node e); Ok (prop p f))
    <$> ((λ n, new c g (Node.address n)) <$> Graph.nodes g type)
  = (λ n, Ok (prop (Node.payload n) f)) <$> Graph.nodes g type.
Proof.
  intros Hu. rewrite <- list_fmap_compose.
  apply Forall_fmap_ext_1, Forall_forall. intros n Hn.
  rewrite nodes_all_nodes in Hn. apply list_elem_of_filter in Hn as [_ Hn].
  unfold compose, GithubEntity.node. simpl.
  by rewrite (node_of_member _ _ Hu Hn).
Qed.

(** X15. In a graph whose node addresses are distinct, every entity of a
    scan reads the payload of the node it was made from: the numbers and
    titles of [issues()] and [pullRequests()], the logins of [authors()]
    and the owners and names of [repositories()] are those of the nodes
    with the matching tag, in the same order. *)
Theorem scanned_fields_of_own_node (this : Entity) :
  let g := graph this in
  let field type f := (λ n, Ok (prop (Node.payload n) f)) <$> Graph.nodes g type in
  Graph.unique_nodes g →
  Issue.number <$> Repository.issues this = field "ISSUE" "number"
  ∧ Issue.title <$> Repository.issues this = field "ISSUE" "title"
  ∧ PullRequest.number <$> Repository.pullRequests this
    = field "PULL_REQUEST" "number"
  ∧ PullRequest.title <$> Repository.pullRequests this
    = field "PULL_REQUEST" "title"
  ∧ Author.login <$> Repository.authors this = field "AUTHOR" "login"
  ∧ Repository.owner <$> Porcelain.repositories g
    = field "REPOSITORY" "owner"
  ∧ Repository.name <$> Porcelain.repositories g = field "REPOSITORY" "name".
Proof.
  intros g field Hu. repeat split; by apply scanned_field.
Qed.

(** ** Arguments of [grain2] *)

(** X16. [grain2] goes on to distribute for exactly three argument lists:
    none (not a simulation), [--simulation] alone and [-s] alone (a
    simulation).  For every other list it emits the one usage line on the
    error stream, returns exit code 1 and does nothing else. *)
Theorem grain2Command_arguments {R} (distribute : bool → Grain2.Std → R)
    (args : list string) (std : Grain2.Std) :
  Grain2.grain2Command distribute args std =
  if decide (args = []) then inr (distribute false std)
  else if decide (args = ["--simulation"] ∨ args = ["-s"])
  then inr (distribute true std)
  else inl ({| Grain2.out := Grain2.out std;
               Grain2.err :=
                 Grain2.err std
                 ++ ["fatal: usage: sourcecred grain2 [--simulation]"] |},
            1%Z).
Proof.
  unfold Grain2.grain2Command.
  destruct args as [|x [|y l]]; simpl.
  - done.
  - destruct (decide (x = "--simulation")) as [->|Hx].
    { by rewrite decide_True by by left. }
    destruct (decide (x = "-s")) as [->|Hy].
    { by rewrite decide_True by by right. }
    rewrite !bool_decide_false by congruence.
    by rewrite decide_False by (intros [?|?]; congruence).
  - by rewrite decide_False by (intros [?|?]; congruence).
Qed.

(** ** Scans and plugin names *)

Section ScanNamespace.
Context `{Imports}.

(** X17. The scans select nodes by type tag alone.  An entity of
    [issues()], [pullRequests()], [authors()] or [repositories()] resolves
    to itself through [asEntity] when its address belongs to this plugin,
    and makes [asEntity] throw the wrong-plugin-name error when it does
    not. *)
Theorem scans_ignore_plugin_name (this e : Entity) :
  e ∈ Repository.issues this ∨ e ∈ Repository.pullRequests this
  ∨ e ∈ Repository.authors this ∨ e ∈ Porcelain.repositories (graph this) →
  asEntity (graph this) (GithubEntity.address e)
  = if decide (Address.pluginName (GithubEntity.address e) = PLUGIN_NAME)
    then Ok e
    else Throw (WrongNamespace (GithubEntity.address e)).
Proof.
  intros He.
  assert (∃ V n, e = new V (graph this) (Node.address n)
                 ∧ Address.type (Node.address n) = tag V)
    as (V & n & -> & Ht).
  { destruct He as [He|[He|[He|He]]];
      apply list_elem_of_fmap in He as (n & -> & Hn);
      rewrite nodes_all_nodes in Hn;
      apply list_elem_of_filter in Hn as [Hn _]; by eexists _, n. }
  unfold GithubEntity.address. simpl. case_decide as Hp.
  - by apply asEntity_own_tag.
  - by apply asEntity_foreign.
Qed.
End ScanNamespace.

(** ** Loading *)

Section LoadProperties.
Context {X J CredResult CredView Plugins : Type}.
Variable credResultFromJSON : J → X + CredResult.
Variable newCredView : CredResult → X + CredView.
Variable bundledPlugins_of : J → X + Plugins.

Let load := Load.load credResultFromJSON newCredView bundledPlugins_of.

(** X18. Once both fetches have resolved, [load] reports success exactly
    when both responses are [ok], the first parses into a cred result from
    which a cred view can be built, and the second parses into an object
    from which [bundledPlugins] can be taken; it then logs nothing and
    returns that view and those plugins. *)
Theorem load_success (r0 r1 : Load.Response) (logged : list Load.Logged)
    (credView : CredView) (bundledPlugins : Plugins) :
  load (inr (r0, r1)) = inr (logged, Load.SUCCESS credView bundledPlugins) ↔
  logged = [] ∧ Load.ok r0 = true ∧ Load.ok r1 = true
  ∧ ∃ json0 credResult json1,
      Load.json r0 = inr json0
      ∧ credResultFromJSON json0 = inr credResult
      ∧ newCredView credResult = inr credView
      ∧ Load.json r1 = inr json1
      ∧ bundledPlugins_of json1 = inr bundledPlugins.
Proof.
  unfold load, Load.load, Load.parse. split.
  - destruct (Load.ok r0); [|done]. destruct (Load.ok r1); [|done]. simpl.
    destruct (Load.json r0) as [|j0]; [done|].
    destruct (credResultFromJSON j0) as [|cr] eqn:Hcr; [done|].
    destruct (newCredView cr) as [|cv] eqn:Hcv; [done|].
    destruct (Load.json r1) as [|j1]; [done|].
    destruct (bundledPlugins_of j1) as [|bp] eqn:Hbp; [done|].
    intros Heq. simplify_eq. repeat split. by exists j0, cr, j1.
  - intros (-> & -> & -> & j0 & cr & j1 & -> & Hcr & Hcv & -> & Hbp).
    simpl. by rewrite Hcr, Hcv, Hbp.
Qed.

(** X19. Every failure [load] returns is logged exactly once, with the
    value it reports: a response that is not [ok] with its status, the
    first such response in the order of the queries and whatever the
    bodies hold; otherwise the value caught while parsing. *)
Theorem load_failure_reported (r0 r1 : Load.Response)
    (logged : list Load.Logged) (error : Load.LoadError) :
  load (inr (r0, r1)) = inr (logged, Load.FAILURE error) →
  (Load.ok r0 = false
   ∧ logged = [Load.LogResponse r0] ∧ error = Load.Status (Load.status r0))
  ∨ (Load.ok r0 = true ∧ Load.ok r1 = false
     ∧ logged = [Load.LogResponse r1]
     ∧ error = Load.Status (Load.status r1))
  ∨ (Load.ok r0 = true ∧ Load.ok r1 = true
     ∧ ∃ e, Load.parse credResultFromJSON newCredView bundledPlugins_of r0 r1
            = inl e
            ∧ logged = [Load.LogCaught e] ∧ error = Load.Caught e).
Proof.
  unfold load, Load.load.
  destruct (Load.ok r0); simpl; [|intros Heq; simplify_eq; by left].
  destruct (Load.ok r1); simpl;
    [|intros Heq; simplify_eq; right; by left].
  destruct (Load.parse _ _ _ r0 r1) as [e|[cv bp]]; intros Heq;
    simplify_eq.
  right. right. repeat split. by exists e.
Qed.
End LoadProperties.

(** * The further properties on the example graphs *)

Lemma more_example_graphs_wf :
  Graph.wf twin_repositories ∧ Graph.wf reviewed.
Proof. split; compute_done. Qed.

Lemma asEntity_then_from_witness :
  let issue := new Cls.Issue widgets (github "ISSUE" "issues/1") in
  asEntity widgets (github "ISSUE" "issues/1") = Ok issue
  ∧ Issue.from issue = Ok issue
  ∧ PullRequest.from issue ≠ Ok issue.
Proof.
  intros issue.
  assert (asEntity widgets (github "ISSUE" "issues/1") = Ok issue) as He
    by reflexivity.
  split; [exact He|]. split.
  - by apply (asEntity_then_from _ _ _ Cls.Issue Issue.from He eq_refl).
  - intros Hfrom.
    by apply (asEntity_then_from _ _ _ Cls.PullRequest PullRequest.from
                He eq_refl) in Hfrom.
Defined.

Lemma from_exclusive_witness :
  let pull := new Cls.PullRequest widgets (github "PULL_REQUEST" "pull/1") in
  PullRequest.from pull = Ok pull
  ∧ Issue.from pull
    = Throw (TypeMismatch (github "PULL_REQUEST" "pull/1") "ISSUE").
Proof.
  intros pull.
  assert (PullRequest.from pull = Ok pull) as Hp by reflexivity.
  split; [exact Hp|].
  by apply (from_exclusive Cls.PullRequest Cls.Issue PullRequest.from
              Issue.from pull eq_refl eq_refl).
Defined.

Lemma issueOrPRByNumber_number_witness :
  let r := new Cls.Repository widgets (github "REPOSITORY" "acme/widgets") in
  let pull := new Cls.PullRequest widgets (github "PULL_REQUEST" "pull/1") in
  Graph.unique_nodes widgets
  ∧ Repository.issueOrPRByNumber r 1 = Some pull
  ∧ PullRequest.number pull = Ok (JNum 1).
Proof.
  intros r pull.
  assert (Graph.unique_nodes widgets) as Hu by compute_done.
  assert (Repository.issueOrPRByNumber r 1 = Some pull) as Hr by reflexivity.
  split; [exact Hu|]. split; [exact Hr|].
  by destruct (issueOrPRByNumber_number r pull 1 Hu Hr) as [[? ?]|[_ ?]].
Defined.

Lemma repository_result_matches_witness :
  let r := new Cls.Repository widgets (github "REPOSITORY" "acme/widgets") in
  Porcelain.repository widgets "acme" "widgets" = Ok (Some r)
  ∧ r ∈ Porcelain.repositories widgets
  ∧ Repository.owner r = Ok (JStr "acme")
  ∧ Repository.name r = Ok (JStr "widgets").
Proof.
  intros r.
  assert (Porcelain.repository widgets "acme" "widgets" = Ok (Some r))
    as Hr by reflexivity.
  split; [exact Hr|]. exact (repository_result_matches _ _ _ _ Hr).
Defined.

Lemma repository_only_error_witness :
  ∃ err, Porcelain.repository twin_repositories "acme" "widgets" = Throw err
         ∧ err = MultipleRepositories "acme" "widgets".
Proof.
  exists (MultipleRepositories "acme" "widgets").
  assert (Porcelain.repository twin_repositories "acme" "widgets"
          = Throw (MultipleRepositories "acme" "widgets")) as Hr
    by reflexivity.
  split; [exact Hr|]. exact (repository_only_error _ _ _ _ Hr).
Defined.

Lemma dangling_relationships_empty_witness :
  let ghost :=
    new Cls.PullRequest widgets (github "PULL_REQUEST" "pull/404") in
  Graph.closed widgets
  ∧ GithubEntity.node ghost = None
  ∧ Post.authors ghost = []
  ∧ Post.references ghost = Ok []
  ∧ PullRequest.mergeCommitHash ghost = Ok JNull.
Proof.
  intros ghost.
  assert (Graph.closed widgets) as Hc by apply example_graphs_wf.
  assert (GithubEntity.node ghost = None) as Hn by reflexivity.
  destruct (dangling_relationships_empty ghost Hc Hn)
    as (Ha & _ & _ & _ & Hr & Hm).
  by repeat split.
Defined.

Lemma containment_accessors_out_witness :
  let pull := new Cls.PullRequest reviewed (github "PULL_REQUEST" "pull/2") in
  let out nt :=
    Graph.neighborhood reviewed (github "PULL_REQUEST" "pull/2")
      (typed_query "CONTAINS" nt (Some Graph.OUT)) in
  Commentable.comments pull
  = (λ n, new Cls.Comment reviewed (Graph.neighbor n)) <$> out "COMMENT"
  ∧ Commentable.comments pull
    = [new Cls.Comment reviewed (github "COMMENT" "comments/1")]
  ∧ PullRequest.reviews pull
    = [new Cls.PullRequestReview reviewed
         (github "PULL_REQUEST_REVIEW" "reviews/1")].
Proof.
  intros pull out. split; [|by split].
  apply (containment_accessors_out pull).
  apply (bool_decide_unpack _). by vm_compute.
Defined.

Lemma scanned_fields_of_own_node_witness :
  let r := new Cls.Repository widgets (github "REPOSITORY" "acme/widgets") in
  Graph.unique_nodes widgets
  ∧ Issue.title <$> Repository.issues r = [Ok (JStr "Bug")]
  ∧ PullRequest.title <$> Repository.pullRequests r = [Ok (JStr "Fix")].
Proof.
  intros r.
  assert (Graph.unique_nodes widgets) as Hu by compute_done.
  destruct (scanned_fields_of_own_node r Hu) as (_ & Hi & _ & Hp & _).
  split; [exact Hu|]. split.
  - rewrite Hi. by vm_compute.
  - rewrite Hp. by vm_compute.
Defined.

(** [issues()] on [reviewed] wraps the ISSUE node of the git plugin, which
    [asEntity] refuses. *)
Lemma scans_ignore_plugin_name_witness :
  let r := new Cls.Repository reviewed (github "REPOSITORY" "none") in
  let foreign := new Cls.Issue reviewed (git "ISSUE" "not-ours") in
  foreign ∈ Repository.issues r
  ∧ asEntity reviewed (git "ISSUE" "not-ours")
    = Throw (WrongNamespace (git "ISSUE" "not-ours")).
Proof.
  intros r foreign.
  assert (foreign ∈ Repository.issues r) as Hin.
  { apply (list_elem_of_lookup_2 _ 0%nat). reflexivity. }
  split; [exact Hin|].
  by rewrite (scans_ignore_plugin_name r foreign (or_introl Hin)).
Defined.

Lemma references_resolved_witness :
  let comment := new Cls.Comment reviewed (github "COMMENT" "comments/1") in
  Post.references comment
  = Ok [new Cls.PullRequest reviewed (github "PULL_REQUEST" "pull/2")]
  ∧ GithubEntity.address
      <$> [new Cls.PullRequest reviewed (github "PULL_REQUEST" "pull/2")]
    = Graph.neighbor
        <$> Graph.neighborhood reviewed (github "COMMENT" "comments/1")
              references_query.
Proof.
  intros comment.
  assert (Post.references comment
          = Ok [new Cls.PullRequest reviewed
                  (github "PULL_REQUEST" "pull/2")]) as Hr by reflexivity.
  split; [exact Hr|].
  by apply (proj1 (references_resolved comment) _ Hr).
Defined.

(** A first response with status 404. *)
Lemma load_failure_reported_witness :
  let r0 := {| Load.ok := false; Load.status := 404;
               Load.json := inl "no body" |} in
  let r1 := {| Load.ok := true; Load.status := 200;
               Load.json := inr "{}" |} in
  let load :=
    Load.load (CredResult := string) (CredView := string) (Plugins := string)
      inr inr inr in
  load (inr (r0, r1))
  = inr ([Load.LogResponse r0], Load.FAILURE (Load.Status 404))
  ∧ Load.ok r0 = false.
Proof.
  intros r0 r1 load.
  assert (load (inr (r0, r1))
          = inr ([Load.LogResponse r0], Load.FAILURE (Load.Status 404)))
    as Hl by reflexivity.
  split; [exact Hl|].
  by destruct (load_failure_reported _ _ _ _ _ _ _ Hl)
    as [(? & _)|[(? & _)|(? & _)]].
Defined.
